(** * redis_backup.py: a shallow embedding and its checked properties

    The script triggers a background save on a Redis server, waits for it,
    copies the rdb file (and optionally the aof file) into a backup
    directory, verifies each copy with an MD5 comparison and prunes old
    backups.  The development below follows [redis_backup.py] function by
    function:

    - Python values, exceptions and a state-and-exception monad over the
      file system;
    - the operating-system calls the script makes ([os.path.*], [os.remove],
      [os.listdir], [os.makedirs], [shutil.copy2]) over a finite map from
      path strings to nodes;
    - [file_md5], [checksum_compare], [bgsave_and_wait], [rdb_path],
      [aof_path], [copy_data_file], [clean_backup_dir] and [main].

    Conventions of the model.
    - A path denotes the node stored under exactly that string: paths are
      taken as written (no symbolic links, no [.] or [..] resolution).
      [main] receives [backup_dir] after [os.path.abspath].
    - A directory keeps the modification time it was created with: the
      model does not update it when an entry is added or removed.
    - Calls to the logger are left out: they neither change the control
      flow nor the backup files.
    - The Redis server and the wall clock are scripts: the n-th [LASTSAVE]
      reply and the n-th reading of [datetime.now()] are given by
      functions of n.  Times are integers: modification times in seconds,
      clock readings and timeouts in microseconds.
    - The polling loop of [bgsave_and_wait] runs on fuel; every statement
      that the function returns a value is proved for all sufficient fuel. *)

From stdpp Require Import gmap strings list fin_maps pretty sorting.
From Stdlib Require Import ZArith Lia Ascii.

Open Scope Z_scope.

(** ** Python values and exceptions *)

(** The values the modelled functions return. *)
Inductive value :=
| VNone
| VInt (n : Z)
| VStr (s : string).

(** Python truthiness, as used by [if not rdb_bak_path]. *)
Definition truthy (v : value) : bool :=
  match v with
  | VNone => false
  | VInt n => negb (n =? 0)
  | VStr s => negb (String.eqb s EmptyString)
  end.

Inductive errno := EEXIST | ENOENT | ENOTDIR | EISDIR.

Inductive exn :=
| OSError (code : errno)
| IOError (code : errno)
| ShutilError
| AssertionError
| KeyError
| TypeError
| RuntimeError
| SystemExit (status : Z).

Inductive res (A : Type) :=
| Ret (a : A)
| Raise (e : exn).
Arguments Ret {A} a.
Arguments Raise {A} e.

(** The status the interpreter hands to the operating system: 0 when the
    script runs to its end, the argument of [sys.exit], and 1 for any other
    uncaught exception. *)
Definition exit_status {A} (r : res A) : Z :=
  match r with
  | Ret _ => 0
  | Raise (SystemExit n) => n
  | Raise _ => 1
  end.

(** ** Strings and paths *)

(** [str.endswith] *)
Fixpoint endswith (s suffix : string) : bool :=
  String.eqb s suffix ||
  match s with
  | EmptyString => false
  | String _ s' => endswith s' suffix
  end.

(** [str.startswith], returning what follows the prefix. *)
Fixpoint strip_prefix (pre s : string) : option string :=
  match pre with
  | EmptyString => Some s
  | String a pre' =>
      match s with
      | EmptyString => None
      | String b s' => if Ascii.eqb a b then strip_prefix pre' s' else None
      end
  end.

Definition slash : Ascii.ascii := "/"%char.

Fixpoint has_slash (s : string) : bool :=
  match s with
  | EmptyString => false
  | String c s' => Ascii.eqb c slash || has_slash s'
  end.

(** [s.rstrip('/')] *)
Fixpoint rstrip_slash (s : string) : string :=
  match s with
  | EmptyString => EmptyString
  | String c s' =>
      match rstrip_slash s' with
      | EmptyString => if Ascii.eqb c slash then EmptyString else String c EmptyString
      | r => String c r
      end
  end.

(** [(p[:i], p[i:])] for [i = p.rfind('/') + 1] *)
Fixpoint rcut (p : string) : string * string :=
  match p with
  | EmptyString => (EmptyString, EmptyString)
  | String c q =>
      match rcut q with
      | (EmptyString, t) =>
          if Ascii.eqb c slash then (String c EmptyString, t) else (EmptyString, String c t)
      | (h, t) => (String c h, t)
      end
  end.

(** [posixpath.split] *)
Definition path_split (p : string) : string * string :=
  let '(head, tail) := rcut p in
  match rstrip_slash head with
  | EmptyString => (head, tail)
  | head' => (head', tail)
  end.

Definition dirname (p : string) : string := (path_split p).1.
Definition basename (p : string) : string := (rcut p).2.

(** [posixpath.join] of two components *)
Definition path_join (a b : string) : string :=
  match strip_prefix "/" b with
  | Some _ => b
  | None =>
      if String.eqb a EmptyString || endswith a "/" then a +:+ b else a +:+ "/" +:+ b
  end.

(** ** The file system *)

Inductive node :=
| File (data : string) (mtime : Z)
| Dir (mtime : Z).

Definition node_mtime (n : node) : Z :=
  match n with File _ t => t | Dir t => t end.

Abbreviation FS := (gmap string node).

Definition fs_exists (fs : FS) (p : string) : bool := bool_decide (is_Some (fs !! p)).

Definition fs_isdir (fs : FS) (p : string) : bool :=
  match fs !! p with Some (Dir _) => true | _ => false end.

Definition fs_isfile (fs : FS) (p : string) : bool :=
  match fs !! p with Some (File _ _) => true | _ => false end.

(** The directory a new node at [p] is created in must be there: the error
    the kernel reports when it is not.  The root and the current directory
    (an empty head) are taken to exist. *)
Definition parent_check (fs : FS) (p : string) : option errno :=
  let head := dirname p in
  if String.eqb (rstrip_slash head) EmptyString then None
  else match fs !! head with
       | Some (Dir _) => None
       | Some (File _ _) => Some ENOTDIR
       | None => Some ENOENT
       end.

(** [entry_name d p] is [Some name] when [p] is the entry [name] of the
    directory [d]. *)
Definition entry_name (d p : string) : option string :=
  match strip_prefix (d +:+ "/") p with
  | Some name => if String.eqb name EmptyString || has_slash name then None else Some name
  | None => None
  end.

Definition entries (fs : FS) (d : string) : list string :=
  omap (λ kv, entry_name d kv.1) (map_to_list fs).

(** ** The monad: state (the file system) and exceptions *)

Definition M (A : Type) : Type := FS → res A * FS.

Definition ret {A} (a : A) : M A := λ fs, (Ret a, fs).
Definition raise {A} (e : exn) : M A := λ fs, (Raise e, fs).
Definition bind {A B} (m : M A) (k : A → M B) : M B :=
  λ fs, match m fs with
        | (Ret a, fs') => k a fs'
        | (Raise e, fs') => (Raise e, fs')
        end.

Notation "'do' x <- m ; k" := (bind m (λ x, k))
  (at level 10, x name, m at level 100, k at level 200,
   format "'[v' 'do'  x  <-  m ; '/' k ']'").
Notation "'do_' m ; k" := (bind m (λ _, k))
  (at level 10, m at level 100, k at level 200,
   format "'[v' 'do_'  m ; '/' k ']'").

(** [assert(c)] *)
Definition py_assert (c : bool) : M unit :=
  if c then ret tt else raise AssertionError.

(** ** Operating-system calls *)

Definition os_path_exists (p : string) : M bool := λ fs, (Ret (fs_exists fs p), fs).
Definition os_path_isdir (p : string) : M bool := λ fs, (Ret (fs_isdir fs p), fs).
Definition os_path_isfile (p : string) : M bool := λ fs, (Ret (fs_isfile fs p), fs).

Definition os_path_getmtime (p : string) : M Z :=
  λ fs, match fs !! p with
        | Some n => (Ret (node_mtime n), fs)
        | None => (Raise (OSError ENOENT), fs)
        end.

Definition os_path_getsize (p : string) : M Z :=
  λ fs, match fs !! p with
        | Some (File data _) => (Ret (Z.of_nat (String.length data)), fs)
        | Some (Dir _) => (Ret 4096, fs)
        | None => (Raise (OSError ENOENT), fs)
        end.

Definition os_listdir (d : string) : M (list string) :=
  λ fs, match fs !! d with
        | Some (Dir _) => (Ret (entries fs d), fs)
        | Some (File _ _) => (Raise (OSError ENOTDIR), fs)
        | None => (Raise (OSError ENOENT), fs)
        end.

Definition os_remove (p : string) : M unit :=
  λ fs, match fs !! p with
        | Some (File _ _) => (Ret tt, delete p fs)
        | Some (Dir _) => (Raise (OSError EISDIR), fs)
        | None => (Raise (OSError ENOENT), fs)
        end.

(** [open(p).read()]: the whole content of a regular file. *)
Definition read_file (p : string) : M string :=
  λ fs, match fs !! p with
        | Some (File data _) => (Ret data, fs)
        | Some (Dir _) => (Raise (IOError EISDIR), fs)
        | None => (Raise (IOError ENOENT), fs)
        end.

(** ** The environment of a run

    What the script cannot compute on its own: the digest function of
    [hashlib], the rendering of a time stamp by [strftime] in the local time
    zone, the time stamp the kernel gives a new directory, and what the
    Redis server does to a data file while the script verifies its copy of
    it (the server keeps writing its files during a backup): [writer E p] is
    [Some (data, mtime)] when the server rewrites the regular file [p]
    between the copy and the verification. *)
Record env := {
  md5 : string → N;
  strftime : string → Z → string;
  dir_stamp : Z;
  writer : string → option (string * Z)
}.

Section Script.
Context (E : env).

Definition os_mkdir (name : string) : M unit :=
  λ fs, if fs_exists fs name then (Raise (OSError EEXIST), fs)
        else match parent_check fs name with
             | Some code => (Raise (OSError code), fs)
             | None => (Ret tt, <[name := Dir (dir_stamp E)]> fs)
             end.

(** [os.makedirs]; the recursion on the head of the path runs on fuel
    ([RuntimeError] is Python's answer to a recursion that is too deep; the
    fuel [os_makedirs] gives is always enough, see [os_makedirs_fuel]). *)
Fixpoint os_makedirs_rec (fuel : nat) (name : string) : M unit :=
  match fuel with
  | O => raise RuntimeError
  | S fuel' =>
      let '(head, tail) := path_split name in
      let '(head, tail) :=
        if String.eqb tail EmptyString then path_split head else (head, tail) in
      do ex <- os_path_exists head;
      if negb (String.eqb head EmptyString) && negb (String.eqb tail EmptyString) && negb ex
      then
        do_ (λ fs, match os_makedirs_rec fuel' head fs with
                   | (Raise (OSError EEXIST), fs') => (Ret tt, fs')
                   | r => r
                   end);
        if String.eqb tail "." then ret tt else os_mkdir name
      else os_mkdir name
  end.

Definition os_makedirs (name : string) : M unit :=
  os_makedirs_rec (S (String.length name)) name.

(** [shutil.copy2]: the bytes and the modification time of [src]. *)
Definition shutil_copy2 (src dst : string) : M unit :=
  do isd <- os_path_isdir dst;
  let dst := if (isd : bool) then path_join dst (basename src) else dst in
  λ fs,
    if String.eqb src dst && fs_exists fs src then (Raise ShutilError, fs)
    else match fs !! src with
         | None => (Raise (IOError ENOENT), fs)
         | Some (Dir _) => (Raise (IOError EISDIR), fs)
         | Some (File data mtime) =>
             match fs !! dst with
             | Some (Dir _) => (Raise (IOError EISDIR), fs)
             | _ =>
                 match parent_check fs dst with
                 | Some code => (Raise (IOError code), fs)
                 | None => (Ret tt, <[dst := File data mtime]> fs)
                 end
             end
         end.

(** The server's write to its data file, if any. *)
Definition store_writes (data_file : string) : M unit :=
  λ fs, match writer E data_file, fs !! data_file with
        | Some (data, t), Some (File _ _) => (Ret tt, <[data_file := File data t]> fs)
        | _, _ => (Ret tt, fs)
        end.

(** ** The script *)

(** [file_md5]: the loop feeds the file to the digest block by block, which
    is the digest of the whole content. *)
Definition file_md5 (filename : string) : M N :=
  do data <- read_file filename;
  ret (md5 E data).

Definition checksum_compare (src dst : string) : M bool :=
  do a <- os_path_isfile src;
  do b <- os_path_isfile dst;
  do_ py_assert (a && b);
  do x <- file_md5 src;
  do y <- file_md5 dst;
  ret (N.eqb x y).

(** The statements of [copy_data_file] that follow the tests on the backup
    directory: the copy, the comparison of the checksums and the result.
    The server's write to [data_file], if the environment has one, falls
    between the copy and the comparison. *)
Definition copy_and_verify (data_file backup_path : string) : M value :=
  do_ shutil_copy2 data_file backup_path;
  do_ store_writes data_file;
  do same <- checksum_compare data_file backup_path;
  if negb same then ret VNone
  else
    do size <- os_path_getsize backup_path;
    ret (VStr backup_path).

Definition copy_data_file (data_file backup_dir backup_filename : string)
    (port : Z) (file_type : string) : M value :=
  do df_mtime <- os_path_getmtime data_file;
  let df_mtime := strftime E backup_filename df_mtime in
  let backup_filename := df_mtime +:+ "." +:+ file_type in
  let backup_path := path_join backup_dir backup_filename in
  do ex <- os_path_exists backup_dir;
  if negb ex then
    do_ os_makedirs backup_dir;
    copy_and_verify data_file backup_path
  else
    do isd <- os_path_isdir backup_dir;
    if negb isd then ret VNone
    else
      do ex' <- os_path_exists backup_path;
      if (ex' : bool) then ret VNone
      else copy_and_verify data_file backup_path.

Definition copy_rdb (rdb backup_dir backup_filename : string) (port : Z) : M value :=
  copy_data_file rdb backup_dir backup_filename port "rdb".

Definition copy_aof (aof backup_dir backup_filename : string) (port : Z) : M value :=
  copy_data_file aof backup_dir backup_filename port "aof".

End Script.

(** ** Retention *)

(** [list.sort(key=lambda x: x[1])]: the stable sort on the second
    component. *)
Fixpoint insert_by_mtime (x : string * Z) (l : list (string * Z)) : list (string * Z) :=
  match l with
  | [] => [x]
  | y :: l' => if x.2 <=? y.2 then x :: l else y :: insert_by_mtime x l'
  end.

Definition sort_by_mtime (l : list (string * Z)) : list (string * Z) :=
  foldr insert_by_mtime [] l.

(** [l[:k]] *)
Definition slice_to {A} (k : Z) (l : list A) : list A :=
  if 0 <=? k then take (Z.to_nat k) l
  else take (length l - Z.to_nat (- k))%nat l.

(** The loop that fills [files_time]. *)
Fixpoint stat_files (backup_dir : string) (files : list string) : M (list (string * Z)) :=
  match files with
  | [] => ret []
  | filename :: files' =>
      let fp := backup_dir +:+ "/" +:+ filename in
      do t <- os_path_getmtime fp;
      do files_time <- stat_files backup_dir files';
      ret ((fp, t) :: files_time)
  end.

(** The loop that removes the oldest entries. *)
Fixpoint remove_files (files_time : list (string * Z)) : M unit :=
  match files_time with
  | [] => ret tt
  | fp :: files_time' =>
      do_ os_remove fp.1;
      remove_files files_time'
  end.

(** ['(port_%d).%s' % (port, file_type)] *)
Definition file_suffix (port : Z) (file_type : string) : string :=
  "(port_" +:+ pretty port +:+ ")." +:+ file_type.

Definition clean_backup_dir (backup_dir : string) (max_backups port : Z)
    (file_type : string) : M value :=
  let file_suffix := file_suffix port file_type in
  do names <- os_listdir backup_dir;
  let files := filter (λ f, endswith f file_suffix = true) names in
  let n_files := Z.of_nat (length files) in
  if n_files <=? max_backups then ret VNone
  else
    do files_time <- stat_files backup_dir files;
    let files_time := sort_by_mtime files_time in
    do_ remove_files (slice_to (n_files - max_backups) files_time);
    do names <- os_listdir backup_dir;
    let files := filter (λ f, endswith f file_suffix = true) names in
    do_ py_assert (Z.of_nat (length files) =? max_backups);
    ret VNone.

Definition clean_rdb_backup (backup_dir : string) (max_backups port : Z) : M value :=
  clean_backup_dir backup_dir max_backups port "rdb".

Definition clean_aof_backup (backup_dir : string) (max_backups port : Z) : M value :=
  clean_backup_dir backup_dir max_backups port "aof".

(** ** The Redis client and the clock *)

Record redis := {
  config : gmap string string;   (* CONFIG GET *)
  bgsave_reply : bool;           (* the reply to BGSAVE *)
  lastsave_at : nat → Z          (* the reply to the n-th LASTSAVE *)
}.

(** The n-th reading of [datetime.now()]. *)
Definition clock := nat → Z.

Inductive call :=
| CallNow
| CallLastsave
| CallBgsave
| CallSleep (seconds : Z).

(** What [bgsave_and_wait] has done so far: the number of [LASTSAVE]
    commands sent, the number of clock readings, and every call in order. *)
Record session := {
  polls : nat;
  ticks : nat;
  calls : list call
}.

Definition new_session : session := {| polls := 0; ticks := 0; calls := [] |}.

Definition datetime_now (clk : clock) (s : session) : Z * session :=
  (clk (ticks s), {| polls := polls s; ticks := S (ticks s); calls := calls s ++ [CallNow] |}).

Definition r_lastsave (r : redis) (s : session) : Z * session :=
  (lastsave_at r (polls s),
   {| polls := S (polls s); ticks := ticks s; calls := calls s ++ [CallLastsave] |}).

Definition r_bgsave (r : redis) (s : session) : bool * session :=
  (bgsave_reply r, {| polls := polls s; ticks := ticks s; calls := calls s ++ [CallBgsave] |}).

Definition sleep (seconds : Z) (s : session) : session :=
  {| polls := polls s; ticks := ticks s; calls := calls s ++ [CallSleep seconds] |}.

(** [timedelta(seconds=n)], in microseconds. *)
Definition timedelta_seconds (n : Z) : Z := n * 1000000.

(** The [while True] loop of [bgsave_and_wait]. *)
Fixpoint wait_for_save (r : redis) (clk : clock) (t0 bgsave_begin timeout : Z)
    (fuel : nat) (s : session) : option (string * session) :=
  match fuel with
  | O => None
  | S fuel' =>
      let '(t, s) := r_lastsave r s in
      if negb (t =? t0) then Some ("ok", s)
      else
        let '(now, s) := datetime_now clk s in
        if now - bgsave_begin >? timeout then Some ("timeout", s)
        else wait_for_save r clk t0 bgsave_begin timeout fuel' (sleep 1 s)
  end.

Definition bgsave_and_wait (r : redis) (clk : clock) (timeout : Z) (fuel : nat)
    : option (string * session) :=
  let '(bgsave_begin, s) := datetime_now clk new_session in
  let '(t0, s) := r_lastsave r s in
  let '(started, s) := r_bgsave r s in
  if (started : bool) then wait_for_save r clk t0 bgsave_begin timeout fuel s
  else Some ("failed", s).

Definition config_get (r : redis) (name : string) : res string :=
  match config r !! name with
  | Some v => Ret v
  | None => Raise KeyError
  end.

Definition rdb_path (r : redis) : res string :=
  match config_get r "dir" with
  | Raise e => Raise e
  | Ret d =>
      match config_get r "dbfilename" with
      | Raise e => Raise e
      | Ret dbfilename => Ret (d +:+ "/" +:+ dbfilename)
      end
  end.

Definition aof_path (r : redis) (aof_filename : string) : res string :=
  match config_get r "dir" with
  | Raise e => Raise e
  | Ret d => Ret (path_join d aof_filename)
  end.

(** ** The orchestrator *)

Record args := {
  backup_dir : string;       (* after os.path.abspath *)
  backup_filename : string;
  max_backups : Z;
  redis_port : Z;
  bgsave_timeout : Z;
  with_aof : bool;
  aof_filename : string
}.

Definition sys_exit {A} (status : Z) : M A := raise (SystemExit status).

(** [os.remove] applied to a Python value. *)
Definition os_remove_value (v : value) : M unit :=
  match v with
  | VStr p => os_remove p
  | _ => raise TypeError
  end.

(** [main], from the connection to the server on.  [None] only when the
    polling loop is out of fuel. *)
Definition main (E : env) (a : args) (r : redis) (clk : clock) (fuel : nat) (fs : FS)
    : option (res unit * FS) :=
  match rdb_path r with
  | Raise e => Some (Raise e, fs)
  | Ret rdb =>
      match (if with_aof a then aof_path r (aof_filename a) else Ret EmptyString) with
      | Raise e => Some (Raise e, fs)
      | Ret aof =>
          match bgsave_and_wait r clk (timedelta_seconds (bgsave_timeout a)) fuel with
          | None => None
          | Some (ret_, _) =>
              if negb (String.eqb ret_ "ok") then Some (Raise (SystemExit 1), fs)
              else
                Some
                  ((do rdb_bak_path <-
                      copy_rdb E rdb (backup_dir a) (backup_filename a) (redis_port a);
                    if negb (truthy rdb_bak_path) then sys_exit 1
                    else
                      do_ (if with_aof a then
                             do aof_bak_path <-
                               copy_aof E aof (backup_dir a) (backup_filename a) (redis_port a);
                             if negb (truthy aof_bak_path) then
                               do_ os_remove_value rdb_bak_path;
                               sys_exit 1
                             else ret tt
                           else ret tt);
                      do_ clean_rdb_backup (backup_dir a) (max_backups a) (redis_port a);
                      do_ (if with_aof a then
                             do_ clean_aof_backup (backup_dir a) (max_backups a) (redis_port a);
                             ret tt
                           else ret tt);
                      ret tt) fs)
          end
      end
  end.


(** ** Vocabulary of the statements *)

(** The path of the entry [f] of the directory [d], as [clean_backup_dir]
    writes it (['%s/%s' % (backup_dir, filename)]). *)
Definition entry_path (d f : string) : string := d +:+ "/" +:+ f.

(** The entries of [d] whose names end with [suffix], in listing order. *)
Definition matching (fs : FS) (d suffix : string) : list string :=
  filter (λ f, endswith f suffix = true) (entries fs d).

(** The modification time [os.path.getmtime] reads at [p]. *)
Definition mtime_at (fs : FS) (p : string) : Z :=
  from_option node_mtime 0 (fs !! p).

(** The entries [clean_backup_dir] sets out to remove: the first
    [n_files - max_backups] of the matching entries in the order of the
    stable sort on their modification times. *)
Definition removal_plan (fs : FS) (d suffix : string) (max_backups : Z) : list (string * Z) :=
  let files := matching fs d suffix in
  slice_to (Z.of_nat (length files) - max_backups)
    (sort_by_mtime (map (λ f, (entry_path d f, mtime_at fs (entry_path d f))) files)).

(** The destination [copy_data_file] derives for a data file last modified
    at [mtime]. *)
Definition backup_path_of (E : env) (backup_dir backup_filename file_type : string)
    (mtime : Z) : string :=
  path_join backup_dir (strftime E backup_filename mtime +:+ "." +:+ file_type).

(** The order of the sort: by modification time. *)
Definition mtime_le (x y : string * Z) : Prop := x.2 ≤ y.2.

(** ** A concrete environment

    Used to run the script on explicit inputs: [strftime] for the UTC time
    zone (the directives of the default template, [%%] and literal text), a
    simple polynomial checksum in the place of MD5, and a server that
    leaves its files alone during the copy. *)

(** The civil date of a day number (days since 1970-01-01). *)
Definition civil_from_days (days : Z) : Z * Z * Z :=
  let z := days + 719468 in
  let era := z / 146097 in
  let doe := z - era * 146097 in
  let yoe := (doe - doe / 1460 + doe / 36524 - doe / 146096) / 365 in
  let doy := doe - (365 * yoe + yoe / 4 - yoe / 100) in
  let mp := (5 * doy + 2) / 153 in
  let d := doy - (153 * mp + 2) / 5 + 1 in
  let m := if mp <? 10 then mp + 3 else mp - 9 in
  let y := yoe + era * 400 + (if m <=? 2 then 1 else 0) in
  (y, m, d).

(** [n] in decimal, on [width] digits. *)
Fixpoint digits (width : nat) (n : Z) : string :=
  match width with
  | O => EmptyString
  | S width' =>
      digits width' (n / 10) +:+
      String (Ascii.ascii_of_nat (48 + Z.to_nat (n mod 10))) EmptyString
  end.

Definition directive (c : Ascii.ascii) (t : Z) : string :=
  let '(y, m, d) := civil_from_days (t / 86400) in
  let secs := t mod 86400 in
  if Ascii.eqb c "Y" then digits 4 y
  else if Ascii.eqb c "m" then digits 2 m
  else if Ascii.eqb c "d" then digits 2 d
  else if Ascii.eqb c "H" then digits 2 (secs / 3600)
  else if Ascii.eqb c "M" then digits 2 (secs / 60 mod 60)
  else if Ascii.eqb c "S" then digits 2 (secs mod 60)
  else if Ascii.eqb c "%" then "%"
  else String "%" (String c EmptyString).

Fixpoint strftime_utc (fmt : string) (t : Z) : string :=
  match fmt with
  | EmptyString => EmptyString
  | String c rest =>
      if Ascii.eqb c "%" then
        match rest with
        | String c' rest' => directive c' t +:+ strftime_utc rest' t
        | EmptyString => String c EmptyString
        end
      else String c (strftime_utc rest t)
  end.

Fixpoint checksum (s : string) : N :=
  match s with
  | EmptyString => 7%N
  | String c s' => ((checksum s' * 257 + N.of_nat (Ascii.nat_of_ascii c)) mod 2 ^ 128)%N
  end.

Definition quiet_env : env :=
  {| md5 := checksum; strftime := strftime_utc; dir_stamp := 1700000000;
     writer := λ _, None |}.

(** The same environment with a server that appends to [/var/lib/redis/dump.rdb]
    while the copy is verified. *)
Definition busy_env : env :=
  {| md5 := checksum; strftime := strftime_utc; dir_stamp := 1700000000;
     writer := λ p, if String.eqb p "/var/lib/redis/dump.rdb"
                    then Some ("REDIS0009-more", 1700000100) else None |}.

Definition sample_config : gmap string string :=
  <["dir" := "/var/lib/redis"]> (<["dbfilename" := "dump.rdb"]> ∅).

(** A server whose save completes between the second and the third poll. *)
Definition sample_redis : redis :=
  {| config := sample_config; bgsave_reply := true;
     lastsave_at := λ n, if (n <? 3)%nat then 1699999000 else 1700000000 |}.

(** A server that rejects [BGSAVE]. *)
Definition refusing_redis : redis :=
  {| config := sample_config; bgsave_reply := false;
     lastsave_at := λ _, 1699999000 |}.

(** A server whose save never completes. *)
Definition stuck_redis : redis :=
  {| config := sample_config; bgsave_reply := true;
     lastsave_at := λ _, 1699999000 |}.

(** A clock that advances by one second at each reading. *)
Definition sample_clock : clock := λ n, Z.of_nat n * 1000000.

(** The command line with its default values. *)
Definition default_args : args :=
  {| backup_dir := "/backups";
     backup_filename := "redis_dump_%Y-%m-%d_%H%M%S";
     max_backups := 10;
     redis_port := 6379;
     bgsave_timeout := 60;
     with_aof := false;
     aof_filename := "appendonly.aof" |}.

Definition sample_fs : FS :=
  <["/var/lib/redis/dump.rdb" := File "REDIS0009" 1700000000]>
  (<["/var/lib/redis/appendonly.aof" := File "SET k v" 1700000001]>
  (<["/var/lib/redis" := Dir 1600000000]>
  (<["/backups" := Dir 1600000000]> ∅))).

(** A backup directory with three backups of port 6379, one of port 6380
    and a file of another name. *)
Definition retention_fs : FS :=
  <["/backups/a(port_6379).rdb" := File "A" 300]>
  (<["/backups/b(port_6379).rdb" := File "B" 100]>
  (<["/backups/c(port_6379).rdb" := File "C" 200]>
  (<["/backups/d(port_6380).rdb" := File "D" 50]>
  (<["/backups/notes.txt" := File "N" 10]>
  (<["/backups" := Dir 1600000000]> ∅))))).

(** The same backups of port 6379 next to other entries of other names and
    other times. *)
Definition retention_fs_other : FS :=
  <["/backups/a(port_6379).rdb" := File "A" 300]>
  (<["/backups/b(port_6379).rdb" := File "B" 100]>
  (<["/backups/c(port_6379).rdb" := File "C" 200]>
  (<["/backups/d(port_6380).rdb" := File "D" 500]>
  (<["/backups/zz.rdb" := File "Z" 1]>
  (<["/backups" := Dir 1700000000]> ∅))))).

(** The default command line with room for a single backup. *)
Definition keep_one_args : args :=
  {| backup_dir := "/backups";
     backup_filename := "redis_dump_%Y-%m-%d_%H%M%S";
     max_backups := 1;
     redis_port := 6379;
     bgsave_timeout := 60;
     with_aof := false;
     aof_filename := "appendonly.aof" |}.

(** The default command line with the aof backup enabled. *)
Definition aof_args : args :=
  {| backup_dir := "/backups";
     backup_filename := "redis_dump_%Y-%m-%d_%H%M%S";
     max_backups := 10;
     redis_port := 6379;
     bgsave_timeout := 60;
     with_aof := true;
     aof_filename := "appendonly.aof" |}.

(** A command line whose template carries the port, with room for a single
    backup. *)
Definition port_args : args :=
  {| backup_dir := "/backups";
     backup_filename := "redis_dump_%Y-%m-%d_%H%M%S(port_6379)";
     max_backups := 1;
     redis_port := 6379;
     bgsave_timeout := 60;
     with_aof := false;
     aof_filename := "appendonly.aof" |}.

(** [sample_fs] with an aof backup of the same time stamp already in the
    backup directory. *)
Definition aof_taken_fs : FS :=
  <["/backups/redis_dump_2023-11-14_221321.aof" := File "SET k v" 1700000001]> sample_fs.

(** [sample_fs] with two entries named like backups of port 6379 in the
    backup directory, the older of which is a directory. *)
Definition blocked_fs : FS :=
  <["/backups/old(port_6379).rdb" := Dir 1500000000]>
  (<["/backups/redis_dump_2023-11-13_221320(port_6379).rdb" := File "REDIS0008" 1699913600]>
   sample_fs).

(** [sample_fs] after a first run of the script with [keep_one_args] and a
    later save of the server. *)
Definition second_run_fs : FS :=
  <["/var/lib/redis/dump.rdb" := File "REDIS0009+" 1700003600]>
  (<["/backups/redis_dump_2023-11-14_221320.rdb" := File "REDIS0009" 1700000000]> sample_fs).

(** ** Further vocabulary *)

(** The last character of a string. *)
Fixpoint last_char (s : string) : option Ascii.ascii :=
  match s with
  | EmptyString => None
  | String c EmptyString => Some c
  | String _ s' => last_char s'
  end.

(** One round of the polling loop of [bgsave_and_wait] that neither finds
    the marker changed nor the deadline passed. *)
Definition polling_round : list call := [CallLastsave; CallNow; CallSleep 1].

(** The calls of [rounds] such rounds in a row. *)
Fixpoint polling_rounds (rounds : nat) : list call :=
  match rounds with
  | O => []
  | S n => polling_round ++ polling_rounds n
  end.

(** The exceptions other than [SystemExit]. *)
Definition plain_exception (e : exn) : Prop :=
  match e with SystemExit _ => False | _ => True end.

(** [retention_fs] with two aof backups of port 6379 next to the rdb
    backups. *)
Definition mixed_fs : FS :=
  <["/backups/a(port_6379).aof" := File "AA" 5]>
  (<["/backups/b(port_6379).aof" := File "BB" 400]> retention_fs).

(** [sample_fs] with an older backup of port 6379 in the backup
    directory. *)
Definition crowded_fs : FS :=
  <["/backups/redis_dump_2023-11-13_221320(port_6379).rdb" := File "REDIS0008" 1699913600]>
  sample_fs.

(** A backup directory whose second oldest entry of port 6379 is a
    directory. *)
Definition half_pruned_fs : FS :=
  <["/backups/a(port_6379).rdb" := File "A" 100]>
  (<["/backups/old(port_6379).rdb" := Dir 200]>
  (<["/backups/c(port_6379).rdb" := File "C" 300]>
  (<["/backups" := Dir 1600000000]> ∅))).

(** * Properties *)

(** ** The model on concrete inputs *)

Example endswith_suffix : endswith "redis_dump_2023(port_6379).rdb" "(port_6379).rdb" = true.
Proof. reflexivity. Qed.

Example endswith_other_port : endswith "redis_dump_2023(port_6380).rdb" "(port_6379).rdb" = false.
Proof. reflexivity. Qed.

Example endswith_shorter : endswith "rdb" "(port_6379).rdb" = false.
Proof. reflexivity. Qed.

Example file_suffix_default : file_suffix 6379 "rdb" = "(port_6379).rdb".
Proof. reflexivity. Qed.

Example path_split_nested : path_split "/var/lib/redis" = ("/var/lib", "redis").
Proof. reflexivity. Qed.

Example path_split_top : path_split "/backups" = ("/", "backups").
Proof. reflexivity. Qed.

Example path_split_trailing : path_split "/var/lib/" = ("/var/lib", EmptyString).
Proof. reflexivity. Qed.

Example path_join_plain : path_join "/backups" "dump.rdb" = "/backups/dump.rdb".
Proof. reflexivity. Qed.

Example path_join_slash : path_join "/backups/" "dump.rdb" = "/backups/dump.rdb".
Proof. reflexivity. Qed.

Example path_join_absolute : path_join "/backups" "/tmp/dump.rdb" = "/tmp/dump.rdb".
Proof. reflexivity. Qed.

Example strftime_default :
  strftime_utc "redis_dump_%Y-%m-%d_%H%M%S" 1700000000 = "redis_dump_2023-11-14_221320".
Proof. reflexivity. Qed.

Example strftime_leap_day :
  strftime_utc "%Y-%m-%d" 951782400 = "2000-02-29".
Proof. reflexivity. Qed.

Example sort_by_mtime_stable :
  sort_by_mtime [("a", 2); ("b", 1); ("c", 2); ("d", 1)] =
  [("b", 1); ("d", 1); ("a", 2); ("c", 2)].
Proof. reflexivity. Qed.

Example slice_to_past_end : slice_to 5 [1; 2; 3] = [1; 2; 3].
Proof. reflexivity. Qed.

Example slice_to_negative : slice_to (-1) [1; 2; 3] = [1; 2].
Proof. reflexivity. Qed.

Example entries_retention_fs :
  entries retention_fs "/backups" =
  ["c(port_6379).rdb"; "a(port_6379).rdb"; "notes.txt"; "b(port_6379).rdb";
   "d(port_6380).rdb"].
Proof. vm_compute. reflexivity. Qed.

Example makedirs_creates_parents :
  map_to_list (os_makedirs quiet_env "/srv/redis/backups" {["/" := Dir 0]}).2 =
  [("/srv/redis/backups", Dir 1700000000); ("/srv/redis", Dir 1700000000);
   ("/srv", Dir 1700000000); ("/", Dir 0)].
Proof. vm_compute. reflexivity. Qed.

Example makedirs_under_a_file :
  (os_makedirs quiet_env "/var/lib/redis/dump.rdb/backups" sample_fs).1 =
  Raise (OSError ENOTDIR).
Proof. vm_compute. reflexivity. Qed.

Example main_default_run :
  match main quiet_env default_args sample_redis sample_clock 3 sample_fs with
  | Some (r, fs') =>
      r = Ret tt ∧
      fs' !! "/backups/redis_dump_2023-11-14_221320.rdb" = Some (File "REDIS0009" 1700000000)
  | None => False
  end.
Proof. vm_compute. split; reflexivity. Qed.

Example main_out_of_fuel :
  main quiet_env default_args sample_redis sample_clock 2 sample_fs = None.
Proof. vm_compute. reflexivity. Qed.

Example clean_backup_dir_retention_fs :
  let run := clean_backup_dir "/backups" 1 6379 "rdb" retention_fs in
  run.1 = Ret VNone ∧
  map_to_list run.2 =
    [("/backups/a(port_6379).rdb", File "A" 300); ("/backups/notes.txt", File "N" 10);
     ("/backups/d(port_6380).rdb", File "D" 50); ("/backups", Dir 1600000000)].
Proof. vm_compute. split; reflexivity. Qed.

Example clean_backup_dir_negative_limit :
  (clean_backup_dir "/backups" (-1) 6379 "rdb" retention_fs).1 = Raise AssertionError.
Proof. vm_compute. reflexivity. Qed.

(** An exception inside [copy_aof] (here the aof file is missing) is not a
    [None]: [main] ends with that exception and the rdb backup stays. *)
Example main_aof_copy_raises :
  match main quiet_env aof_args sample_redis sample_clock 3
          (delete "/var/lib/redis/appendonly.aof" sample_fs) with
  | Some (r, fs') =>
      r = Raise (OSError ENOENT) ∧
      fs' !! "/backups/redis_dump_2023-11-14_221320.rdb" = Some (File "REDIS0009" 1700000000)
  | None => False
  end.
Proof. vm_compute. split; reflexivity. Qed.

Example clean_backup_dir_half_pruned :
  let run := clean_backup_dir "/backups" 1 6379 "rdb" half_pruned_fs in
  run.1 = Raise (OSError EISDIR) ∧
  map_to_list run.2 =
    [("/backups/old(port_6379).rdb", Dir 200); ("/backups/c(port_6379).rdb", File "C" 300);
     ("/backups", Dir 1600000000)].
Proof. vm_compute. split; reflexivity. Qed.

Lemma pair_eta_fst {A B} (p : A * B) (a : A) : p.1 = a → p = (a, p.2).
Proof. destruct p. simpl. by intros ->. Qed.

Lemma strip_prefix_Some pre s r : strip_prefix pre s = Some r ↔ s = pre +:+ r.
Proof.
  revert s. induction pre as [|a pre IH]; intros s; simpl.
  - split; [intros [= ->]|intros ->]; done.
  - destruct s as [|b s]; [split; discriminate|].
    destruct (Ascii.eqb_spec a b) as [->|Hne].
    + rewrite IH. split; [intros ->; done|intros [= ->]; done].
    + split; [discriminate|intros [= ? ?]; done].
Qed.

Lemma append_cons x (a b : string) : String x a +:+ b = String x (a +:+ b).
Proof. reflexivity. Qed.

Lemma append_assoc (a b c : string) : (a +:+ b) +:+ c = a +:+ b +:+ c.
Proof. induction a as [|x a IH]; [done|]. by rewrite !append_cons, IH. Qed.

Lemma append_length (a b : string) :
  String.length (a +:+ b) = (String.length a + String.length b)%nat.
Proof. induction a as [|x a IH]; [done|]. rewrite append_cons. simpl. by rewrite IH. Qed.

Lemma entry_name_Some d p name :
  entry_name d p = Some name ↔
  p = d +:+ "/" +:+ name ∧ name ≠ EmptyString ∧ has_slash name = false.
Proof.
  unfold entry_name.
  destruct (strip_prefix (d +:+ "/") p) as [r|] eqn:Hp.
  - apply strip_prefix_Some in Hp. rewrite append_assoc in Hp. subst p.
    destruct (String.eqb_spec r EmptyString) as [->|Hr]; simpl.
    + split; [discriminate|]. intros (Heq & Hne & _).
      apply (inj (String.app d)), (inj (String.app "/")) in Heq. by subst.
    + destruct (has_slash r) eqn:Hs.
      * split; [discriminate|]. intros (Heq & _ & Hs').
        apply (inj (String.app d)), (inj (String.app "/")) in Heq. congruence.
      * split.
        -- intros [= ->]. done.
        -- intros (Heq & _ & _).
           apply (inj (String.app d)), (inj (String.app "/")) in Heq. by subst.
  - split; [discriminate|]. intros (-> & _ & _).
    assert (strip_prefix (d +:+ "/") (d +:+ "/" +:+ name) = Some name) as Hs.
    { apply strip_prefix_Some. by rewrite append_assoc. }
    congruence.
Qed.

Lemma NoDup_omap {A B} (f : A → option B) (l : list A) :
  (∀ x y z, x ∈ l → y ∈ l → f x = Some z → f y = Some z → x = y) →
  NoDup l → NoDup (omap f l).
Proof.
  intros Hinj Hl. induction Hl as [|x l Hx Hl IH]; simpl; [constructor|].
  assert (NoDup (omap f l)) as IH'.
  { apply IH. intros a b z Ha Hb. apply Hinj; by right. }
  destruct (f x) as [z|] eqn:Hfx; [|done].
  constructor; [|done].
  rewrite list_elem_of_omap. intros (y & Hy & Hfy).
  rewrite (Hinj x y z) in Hx; [done|by left|by right|done..].
Qed.

Lemma elem_of_entries (fs : FS) d name :
  name ∈ entries fs d ↔
  is_Some (fs !! entry_path d name) ∧ name ≠ EmptyString ∧ has_slash name = false.
Proof.
  unfold entries, entry_path. rewrite list_elem_of_omap. split.
  - intros ([p nd] & Hin & Hname). simpl in Hname.
    apply entry_name_Some in Hname as (-> & ? & ?).
    apply elem_of_map_to_list in Hin. eauto.
  - intros ([nd Hnd] & ? & ?). exists (d +:+ "/" +:+ name, nd). split.
    + by apply elem_of_map_to_list.
    + simpl. by apply entry_name_Some.
Qed.

Lemma NoDup_entries (fs : FS) d : NoDup (entries fs d).
Proof.
  unfold entries. apply NoDup_omap; [|apply NoDup_map_to_list].
  intros [p1 n1] [p2 n2] z Hin1 Hin2 H1 H2. simpl in *.
  apply entry_name_Some in H1 as (-> & _). apply entry_name_Some in H2 as (-> & _).
  apply elem_of_map_to_list in Hin1, Hin2. congruence.
Qed.

Lemma entry_path_inj d : Inj (=) (=) (entry_path d).
Proof.
  intros f g H. unfold entry_path in H.
  by apply (inj (String.app d)), (inj (String.app "/")) in H.
Qed.

Lemma entry_path_ne d f : entry_path d f ≠ d.
Proof.
  unfold entry_path. intros H. apply (f_equal String.length) in H.
  rewrite !append_length in H. simpl in H. lia.
Qed.

(** ** The stable sort *)

Lemma insert_by_mtime_perm x l : insert_by_mtime x l ≡ₚ x :: l.
Proof.
  induction l as [|y l IH]; simpl; [done|].
  destruct (x.2 <=? y.2); [done|]. by rewrite IH, Permutation_swap.
Qed.

Lemma sort_by_mtime_perm l : sort_by_mtime l ≡ₚ l.
Proof.
  induction l as [|x l IH]; simpl; [done|].
  by rewrite insert_by_mtime_perm, IH.
Qed.

Lemma insert_by_mtime_sorted x l :
  StronglySorted mtime_le l → StronglySorted mtime_le (insert_by_mtime x l).
Proof.
  induction 1 as [|y l Hl IH Hy]; simpl.
  - repeat constructor.
  - destruct (Z.leb_spec x.2 y.2) as [Hle|Hgt].
    + constructor; [by constructor|]. constructor; [done|].
      eapply Forall_impl; [exact Hy|]. unfold mtime_le. intros; lia.
    + constructor; [done|].
      rewrite insert_by_mtime_perm. constructor; [unfold mtime_le; lia|done].
Qed.

Lemma sort_by_mtime_sorted l : StronglySorted mtime_le (sort_by_mtime l).
Proof.
  induction l as [|x l IH]; simpl; [constructor|].
  by apply insert_by_mtime_sorted.
Qed.

Lemma sorted_take_drop (l : list (string * Z)) k x y :
  StronglySorted mtime_le l → x ∈ take k l → y ∈ drop k l → x.2 ≤ y.2.
Proof.
  intros Hl Hx Hy. rewrite <- (take_drop k l) in Hl.
  exact (StronglySorted_app_1_elem_of mtime_le _ _ x y Hl Hx Hy).
Qed.

(** ** The two loops of [clean_backup_dir] *)

Lemma stat_files_ok d files (fs : FS) :
  Forall (λ f, is_Some (fs !! entry_path d f)) files →
  stat_files d files fs =
    (Ret (map (λ f, (entry_path d f, mtime_at fs (entry_path d f))) files), fs).
Proof.
  induction 1 as [|f files [nd Hf] _ IH]; simpl; [done|].
  unfold bind, os_path_getmtime, mtime_at, entry_path in *.
  rewrite Hf. simpl. by rewrite IH.
Qed.

Lemma lookup_removed (fs fs' : FS) (x : string) (D : list string) p :
  fs' !! p = (if bool_decide (p ∈ D) then None else delete x fs !! p) →
  fs' !! p = if bool_decide (p ∈ x :: D) then None else fs !! p.
Proof.
  intros ->. destruct (decide (p = x)) as [->|Hne].
  - rewrite lookup_delete_eq. rewrite (bool_decide_eq_true_2 (x ∈ x :: D)) by left.
    by destruct (bool_decide _).
  - rewrite lookup_delete_ne by done.
    rewrite (bool_decide_ext (p ∈ x :: D) (p ∈ D)); [done|].
    rewrite elem_of_cons. tauto.
Qed.

(** However the loop ends, it has removed a prefix of its list and has
    touched nothing else; and what it does depends only on the nodes at
    the paths of its list. *)
Lemma remove_files_agree l (fs1 fs2 : FS) :
  (∀ x, x ∈ l → fs1 !! x.1 = fs2 !! x.1) →
  ∃ done_ rest,
    l = done_ ++ rest ∧
    (remove_files l fs1).1 = (remove_files l fs2).1 ∧
    (∀ p, (remove_files l fs1).2 !! p =
          if bool_decide (p ∈ done_.*1) then None else fs1 !! p) ∧
    (∀ p, (remove_files l fs2).2 !! p =
          if bool_decide (p ∈ done_.*1) then None else fs2 !! p) ∧
    ((remove_files l fs1).1 = Ret tt → rest = []).
Proof.
  revert fs1 fs2. induction l as [|x l IH]; intros fs1 fs2 Hagree.
  - exists [], []. simpl. repeat split; done.
  - assert (fs1 !! x.1 = fs2 !! x.1) as Hx by (apply Hagree; left).
    simpl. unfold bind, os_remove. rewrite <- Hx.
    destruct (fs1 !! x.1) as [[data t|t]|] eqn:Hnode.
    + destruct (IH (delete x.1 fs1) (delete x.1 fs2)) as
        (done_ & rest & -> & Hr & H1 & H2 & Hok).
      { intros y Hy. destruct (decide (x.1 = y.1)) as [->|Hne].
        - by rewrite !lookup_delete_eq.
        - rewrite !lookup_delete_ne by done. apply Hagree. by right. }
      exists (x :: done_), rest. split; [done|]. split; [done|].
      split; [|split; [|done]].
      * intros p. by apply lookup_removed.
      * intros p. by apply lookup_removed.
    + exists [], (x :: l). simpl. repeat split; done.
    + exists [], (x :: l). simpl. repeat split; done.
Qed.

Lemma remove_files_ok l (fs : FS) :
  NoDup l.*1 → Forall (λ x, fs_isfile fs x.1 = true) l →
  (remove_files l fs).1 = Ret tt.
Proof.
  revert fs. induction l as [|x l IH]; intros fs Hnd Hfiles; [done|].
  apply NoDup_cons in Hnd as [Hx Hnd]. apply Forall_cons in Hfiles as [Hfx Hfiles].
  simpl. unfold bind, os_remove. unfold fs_isfile in Hfx.
  destruct (fs !! x.1) as [[data t|t]|] eqn:Hnode; try done.
  apply IH; [done|].
  eapply Forall_forall. intros y Hy.
  rewrite Forall_forall in Hfiles. specialize (Hfiles y Hy).
  unfold fs_isfile in *. rewrite lookup_delete_ne; [done|].
  intros Heq. apply Hx. rewrite Heq. by apply list_elem_of_fmap_2.
Qed.

Lemma remove_files_raises l (fs : FS) e :
  (remove_files l fs).1 = Raise e → ∃ code, e = OSError code.
Proof.
  revert fs. induction l as [|x l IH]; intros fs; [done|].
  simpl. unfold bind, os_remove.
  destruct (fs !! x.1) as [[data t|t]|]; simpl.
  - apply IH.
  - intros [= <-]. eauto.
  - intros [= <-]. eauto.
Qed.

(** ** The matching entries and the removal plan *)

Lemma elem_of_matching (fs : FS) d sfx f :
  f ∈ matching fs d sfx ↔ f ∈ entries fs d ∧ endswith f sfx = true.
Proof. unfold matching. rewrite list_elem_of_filter. tauto. Qed.

Lemma NoDup_matching (fs : FS) d sfx : NoDup (matching fs d sfx).
Proof. apply NoDup_filter, NoDup_entries. Qed.

Lemma matching_exist (fs : FS) d sfx :
  Forall (λ f, is_Some (fs !! entry_path d f)) (matching fs d sfx).
Proof.
  apply Forall_forall. intros f Hf.
  apply elem_of_matching in Hf as [Hf _]. by apply elem_of_entries in Hf as [? _].
Qed.

Lemma slice_to_sublist {A} k (l : list A) : slice_to k l `sublist_of` l.
Proof. unfold slice_to. destruct (0 <=? k); apply sublist_take. Qed.

Lemma elem_of_removal_plan (fs : FS) d sfx max x :
  x ∈ removal_plan fs d sfx max →
  ∃ f, f ∈ matching fs d sfx ∧ x = (entry_path d f, mtime_at fs (entry_path d f)).
Proof.
  unfold removal_plan. intros Hx.
  eapply elem_of_sublist in Hx; [|apply slice_to_sublist].
  rewrite sort_by_mtime_perm in Hx.
  apply list_elem_of_fmap in Hx as (f & -> & Hf). eauto.
Qed.

Lemma NoDup_removal_plan (fs : FS) d sfx max :
  NoDup (removal_plan fs d sfx max).*1.
Proof.
  unfold removal_plan.
  eapply sublist_NoDup; [|apply fmap_sublist, slice_to_sublist].
  rewrite sort_by_mtime_perm. rewrite <- list_fmap_compose.
  apply NoDup_fmap_2, NoDup_matching.
  intros f g Hfg. simpl in Hfg. by apply entry_path_inj in Hfg.
Qed.

Lemma removal_plan_not_dir (fs : FS) d sfx max : d ∉ (removal_plan fs d sfx max).*1.
Proof.
  intros Hd. apply list_elem_of_fmap in Hd as (x & Hx1 & Hx).
  apply elem_of_removal_plan in Hx as (f & _ & ->). simpl in Hx1.
  symmetry in Hx1. by apply entry_path_ne in Hx1.
Qed.

(** [clean_backup_dir] on a directory, rewritten as one removal of the plan
    followed by the final assertion. *)
Lemma clean_backup_dir_unfold d max port ft (fs : FS) :
  fs_isdir fs d = true →
  clean_backup_dir d max port ft fs =
    let sfx := file_suffix port ft in
    if Z.of_nat (length (matching fs d sfx)) <=? max then (Ret VNone, fs)
    else
      match remove_files (removal_plan fs d sfx max) fs with
      | (Ret _, fs') =>
          (if Z.of_nat (length (matching fs' d sfx)) =? max
           then Ret VNone else Raise AssertionError, fs')
      | (Raise e, fs') => (Raise e, fs')
      end.
Proof.
  intros Hd. unfold fs_isdir in Hd.
  destruct (fs !! d) as [[?|td]|] eqn:Hfd; try done.
  unfold clean_backup_dir. cbv zeta. unfold bind at 1. unfold os_listdir at 1.
  rewrite Hfd. fold (matching fs d (file_suffix port ft)).
  destruct (_ <=? max); [done|].
  unfold bind at 1. rewrite (stat_files_ok _ _ _ (matching_exist fs d _)).
  fold (removal_plan fs d (file_suffix port ft) max).
  unfold bind at 1.
  destruct (remove_files_agree (removal_plan fs d (file_suffix port ft) max) fs fs)
    as (done_ & rest & Hplan & _ & Hlook & _ & _); [done|].
  destruct (remove_files _ fs) as [[[]|e] fs'] eqn:Hrun; [|done].
  simpl in Hlook.
  assert (fs' !! d = Some (Dir td)) as Hfd'.
  { rewrite Hlook, bool_decide_eq_false_2; [done|].
    intros Hin. apply (removal_plan_not_dir fs d (file_suffix port ft) max).
    rewrite Hplan, fmap_app. apply elem_of_app. by left. }
  unfold bind at 1. unfold os_listdir. rewrite Hfd'.
  fold (matching fs' d (file_suffix port ft)).
  unfold bind, py_assert. by destruct (_ =? max).
Qed.

Lemma matching_after_removal (fs fs' : FS) d sfx (D : list string) :
  (∀ p, fs' !! p = if bool_decide (p ∈ D) then None else fs !! p) →
  ∀ f, f ∈ matching fs' d sfx ↔ f ∈ matching fs d sfx ∧ entry_path d f ∉ D.
Proof.
  intros Hlook f. rewrite !elem_of_matching, !elem_of_entries, Hlook.
  case_bool_decide as HD.
  - split; [intros [([? ?] & _) _]; done|tauto].
  - tauto.
Qed.

Lemma length_matching_after_removal (fs fs' : FS) d sfx (D : list string) :
  (∀ p, fs' !! p = if bool_decide (p ∈ D) then None else fs !! p) →
  NoDup D →
  (∀ p, p ∈ D → ∃ f, f ∈ matching fs d sfx ∧ p = entry_path d f) →
  (length (matching fs' d sfx) + length D = length (matching fs d sfx))%nat.
Proof.
  intros Hlook HD Hsub.
  set (L := matching fs d sfx).
  assert (matching fs' d sfx ≡ₚ filter (λ f, entry_path d f ∉ D) L) as ->.
  { apply NoDup_Permutation.
    - apply NoDup_matching.
    - apply NoDup_filter, NoDup_matching.
    - intros f. rewrite list_elem_of_filter, (matching_after_removal fs fs' d sfx D Hlook).
      tauto. }
  assert (D ≡ₚ entry_path d <$> filter (λ f, ¬ (entry_path d f ∉ D)) L) as HDperm.
  { apply NoDup_Permutation; [done| |].
    - apply (NoDup_fmap_2 (entry_path d) (Inj0 := entry_path_inj d)).
      apply NoDup_filter, NoDup_matching.
    - intros p. rewrite list_elem_of_fmap. split.
      + intros Hp. destruct (Hsub p Hp) as (f & Hf & ->). exists f. split; [done|].
        apply list_elem_of_filter. split; [tauto|done].
      + intros (f & -> & Hf). apply list_elem_of_filter in Hf as [Hf _].
        by destruct (decide (entry_path d f ∈ D)). }
  rewrite (Permutation_length HDperm), length_fmap, <- length_app.
  by rewrite filter_app_complement.
Qed.

Lemma slice_to_take {A} k (l : list A) : 0 ≤ k → slice_to k l = take (Z.to_nat k) l.
Proof. intros Hk. unfold slice_to. by destruct (Z.leb_spec 0 k); [|lia]. Qed.

(** ** Claim C4 *)

(** C4 (retention keeps the newest).  On a backup directory: when the
    number of entries whose names end with [(port_<port>).<file_type>] is
    at most [max_backups], [clean_backup_dir] leaves the file system as it
    is; when it is larger (for a limit that is not negative and matching
    entries that are regular files), the call removes exactly that number
    minus [max_backups] distinct matching entries and nothing else, every
    removed entry is at most as recent as every matching entry that stays,
    and exactly [max_backups] matching entries remain. *)
Theorem clean_backup_dir_keeps_newest (d : string) (max_backups port : Z)
    (file_type : string) (fs : FS) :
  let sfx := file_suffix port file_type in
  let files := matching fs d sfx in
  fs_isdir fs d = true →
  (Z.of_nat (length files) ≤ max_backups →
   clean_backup_dir d max_backups port file_type fs = (Ret VNone, fs)) ∧
  (max_backups < Z.of_nat (length files) →
   0 ≤ max_backups →
   Forall (λ f, fs_isfile fs (entry_path d f) = true) files →
   ∃ (deleted : list string) (fs' : FS),
     clean_backup_dir d max_backups port file_type fs = (Ret VNone, fs') ∧
     NoDup deleted ∧
     (∀ f, f ∈ deleted → f ∈ files) ∧
     Z.of_nat (length deleted) = Z.of_nat (length files) - max_backups ∧
     (∀ p, fs' !! p =
           if bool_decide (p ∈ entry_path d <$> deleted) then None else fs !! p) ∧
     (∀ f g, f ∈ deleted → g ∈ files → g ∉ deleted →
             mtime_at fs (entry_path d f) ≤ mtime_at fs (entry_path d g)) ∧
     Z.of_nat (length (matching fs' d sfx)) = max_backups ∧
     (∀ g, g ∈ matching fs' d sfx ↔ g ∈ files ∧ g ∉ deleted)).
Proof.
  intros sfx files Hd.
  rewrite (clean_backup_dir_unfold d max_backups port file_type fs Hd).
  cbv zeta. fold sfx. fold files. split.
  - intros Hle. by destruct (Z.leb_spec (Z.of_nat (length files)) max_backups); [|lia].
  - intros Hlt Hmax Hfiles.
    destruct (Z.leb_spec (Z.of_nat (length files)) max_backups); [lia|].
    set (plan := removal_plan fs d sfx max_backups).
    set (g := λ f, (entry_path d f, mtime_at fs (entry_path d f))).
    set (sorted := sort_by_mtime (g <$> files)).
    set (k := Z.to_nat (Z.of_nat (length files) - max_backups)).
    assert (plan = take k sorted) as Hplan.
    { unfold plan, removal_plan. fold files. apply slice_to_take. lia. }
    assert (length sorted = length files) as Hlen.
    { unfold sorted. by rewrite sort_by_mtime_perm, length_fmap. }
    assert (length plan = k) as Hlenplan.
    { rewrite Hplan, length_take. lia. }
    assert (∀ x, x ∈ plan → ∃ f, f ∈ files ∧ x = g f) as Hplan_in.
    { intros x Hx. by apply elem_of_removal_plan in Hx. }
    assert (NoDup plan.*1) as Hplan_nd by apply NoDup_removal_plan.
    assert ((remove_files plan fs).1 = Ret tt) as Hok.
    { apply remove_files_ok; [done|]. apply Forall_forall. intros x Hx.
      destruct (Hplan_in x Hx) as (f & Hf & ->). simpl.
      rewrite Forall_forall in Hfiles. by apply Hfiles. }
    destruct (remove_files_agree plan fs fs) as
      (done_ & rest & Hsplit & _ & Hlook & _ & Hrest); [done|].
    specialize (Hrest Hok). subst rest. rewrite app_nil_r in Hsplit. subst done_.
    destruct (remove_files plan fs) as [r fs'] eqn:Hrun. simpl in Hok, Hlook. subst r.
    pose proof (length_matching_after_removal fs fs' d sfx plan.*1 Hlook Hplan_nd) as Hcount.
    fold files in Hcount. rewrite length_fmap, Hlenplan in Hcount.
    assert ((length (matching fs' d sfx) + k)%nat = length files) as Hcount'.
    { apply Hcount. intros p Hp. apply list_elem_of_fmap in Hp as (x & -> & Hx).
      destruct (Hplan_in x Hx) as (f & Hf & ->). eauto. }
    clear Hcount.
    assert (Z.of_nat (length (matching fs' d sfx)) = max_backups) as Hremain by lia.
    rewrite Hremain, Z.eqb_refl.
    set (deleted := filter (λ f, entry_path d f ∈ plan.*1) files).
    assert (∀ f, f ∈ files → (f ∈ deleted ↔ g f ∈ plan)) as Hdel.
    { intros f Hf. unfold deleted. rewrite list_elem_of_filter. split.
      - intros [Hp _]. apply list_elem_of_fmap in Hp as (x & Hx1 & Hx).
        destruct (Hplan_in x Hx) as (f' & Hf' & ->). simpl in Hx1.
        apply entry_path_inj in Hx1. by subst f'.
      - intros Hg. split; [|done]. apply list_elem_of_fmap. by exists (g f). }
    assert (entry_path d <$> deleted ≡ₚ plan.*1) as Hperm.
    { apply NoDup_Permutation; [|done|].
      - apply (NoDup_fmap_2 (entry_path d) (Inj0 := entry_path_inj d)).
        apply NoDup_filter, NoDup_matching.
      - intros p. rewrite list_elem_of_fmap. split.
        + intros (f & -> & Hf). by apply list_elem_of_filter in Hf as [? _].
        + intros Hp. pose proof Hp as Hp'.
          apply list_elem_of_fmap in Hp as (x & -> & Hx).
          destruct (Hplan_in x Hx) as (f & Hf & ->). exists f. split; [done|].
          apply list_elem_of_filter. by split. }
    exists deleted, fs'. split; [done|]. split; [apply NoDup_filter, NoDup_matching|].
    split; [intros f Hf; by apply list_elem_of_filter in Hf as [_ ?]|].
    split.
    { rewrite <- (length_fmap (entry_path d)), Hperm, length_fmap, Hlenplan. lia. }
    split.
    { intros p. rewrite Hlook. apply (f_equal (λ b : bool, if b then None else fs !! p)).
      apply bool_decide_ext. by rewrite Hperm. }
    split.
    { intros f h Hf Hh Hnh.
      assert (f ∈ files) as Hff by (by apply list_elem_of_filter in Hf as [_ ?]).
      apply Hdel in Hf; [|done].
      assert (g h ∈ drop k sorted) as Hdrop.
      { assert (g h ∈ sorted) as Hin.
        { unfold sorted. rewrite sort_by_mtime_perm. by apply list_elem_of_fmap_2. }
        rewrite <- (take_drop k sorted) in Hin. apply elem_of_app in Hin as [Hin|Hin]; [|done].
        rewrite <- Hplan in Hin. apply Hdel in Hin; done. }
      rewrite Hplan in Hf.
      exact (sorted_take_drop sorted k (g f) (g h) (sort_by_mtime_sorted _) Hf Hdrop). }
    split; [done|].
    intros h. rewrite (matching_after_removal fs fs' d sfx plan.*1 Hlook). fold files.
    split.
    + intros [Hh Hn]. split; [done|]. intros Hhd. apply Hn.
      rewrite <- Hperm. by apply list_elem_of_fmap_2.
    + intros [Hh Hn]. split; [done|]. intros Hp. apply Hn.
      unfold deleted. apply list_elem_of_filter. by split.
Qed.

(** ** What [clean_backup_dir] returns and what it leaves alone *)

Lemma clean_backup_dir_not_dir d max port ft (fs : FS) :
  fs_isdir fs d = false →
  ∃ code, clean_backup_dir d max port ft fs = (Raise (OSError code), fs).
Proof.
  unfold fs_isdir, clean_backup_dir, bind, os_listdir.
  destruct (fs !! d) as [[?|?]|]; intros; try done; eauto.
Qed.

(** Whatever the outcome, the file system afterwards is the one before less
    a set of paths of matching entries. *)
Lemma clean_backup_dir_removed d max port ft (fs : FS) :
  ∃ D : list string,
    (∀ p, p ∈ D → ∃ f, f ∈ matching fs d (file_suffix port ft) ∧ p = entry_path d f) ∧
    NoDup D ∧
    (∀ p, (clean_backup_dir d max port ft fs).2 !! p =
          if bool_decide (p ∈ D) then None else fs !! p).
Proof.
  destruct (fs_isdir fs d) eqn:Hd.
  - rewrite (clean_backup_dir_unfold d max port ft fs Hd). cbv zeta.
    destruct (_ <=? max).
    { exists []. split; [by intros p Hp%elem_of_nil|]. split; [constructor|done]. }
    set (plan := removal_plan fs d (file_suffix port ft) max).
    destruct (remove_files_agree plan fs fs) as
      (done_ & rest & Hsplit & _ & Hlook & _ & _); [done|].
    exists done_.*1. split; [|split].
    + intros p Hp. apply list_elem_of_fmap in Hp as (x & -> & Hx).
      assert (x ∈ plan) as Hxp by (rewrite Hsplit; apply elem_of_app; by left).
      apply elem_of_removal_plan in Hxp as (f & Hf & ->). eauto.
    + pose proof (NoDup_removal_plan fs d (file_suffix port ft) max) as Hnd.
      fold plan in Hnd. rewrite Hsplit, fmap_app in Hnd.
      by apply NoDup_app in Hnd as [? _].
    + intros p. by destruct (remove_files plan fs) as [[[]|e] fs'].
  - destruct (clean_backup_dir_not_dir d max port ft fs Hd) as [code ->].
    exists []. split; [by intros p Hp%elem_of_nil|]. split; [constructor|done].
Qed.

Lemma clean_backup_dir_result d max port ft (fs : FS) :
  match (clean_backup_dir d max port ft fs).1 with
  | Ret v => v = VNone
  | Raise e => e = AssertionError ∨ ∃ code, e = OSError code
  end.
Proof.
  destruct (fs_isdir fs d) eqn:Hd.
  - rewrite (clean_backup_dir_unfold d max port ft fs Hd). cbv zeta.
    destruct (_ <=? max); [done|].
    pose proof (remove_files_raises (removal_plan fs d (file_suffix port ft) max) fs) as Hraise.
    destruct (remove_files _ fs) as [[[]|e] fs']; simpl in *.
    + destruct (_ =? max); simpl; auto.
    + right. by apply Hraise.
  - destruct (clean_backup_dir_not_dir d max port ft fs Hd) as [code ->]. simpl. eauto.
Qed.

(** ** Claim C9 *)

(** C9, as amended (the return value of retention).  For every invocation,
    [clean_backup_dir] hands back no count: whenever it returns, the value
    is [None], whatever the number of files it removed. *)
Theorem clean_backup_dir_returns_none (d : string) (max_backups port : Z)
    (file_type : string) (fs : FS) :
  match (clean_backup_dir d max_backups port file_type fs).1 with
  | Ret v => v = VNone
  | Raise _ => True
  end.
Proof.
  pose proof (clean_backup_dir_result d max_backups port file_type fs) as H.
  by destruct (clean_backup_dir _ _ _ _ fs).1.
Qed.

(** ** Claim C10 *)

(** C10 (entries of other names are left alone).  For every invocation of
    [clean_backup_dir], whatever its outcome: a path [d/f] whose name [f]
    does not end with [(port_<port>).<file_type>] holds afterwards what it
    held before; and such entries play no part in counting or ranking: on
    two file systems that list the same matching entries of [d], with the
    same nodes under them, the call gives the same result and removes the
    same paths, however the two differ elsewhere. *)
Theorem clean_backup_dir_ignores_other_entries (d : string) (max_backups port : Z)
    (file_type : string) (fs : FS) :
  let sfx := file_suffix port file_type in
  (∀ f, endswith f sfx = false →
        (clean_backup_dir d max_backups port file_type fs).2 !! entry_path d f =
        fs !! entry_path d f) ∧
  (∀ fs2 : FS,
     fs_isdir fs d = true → fs_isdir fs2 d = true →
     matching fs2 d sfx = matching fs d sfx →
     Forall (λ f, fs2 !! entry_path d f = fs !! entry_path d f) (matching fs d sfx) →
     (clean_backup_dir d max_backups port file_type fs2).1 =
     (clean_backup_dir d max_backups port file_type fs).1 ∧
     ∃ D : list string,
       (∀ p, (clean_backup_dir d max_backups port file_type fs).2 !! p =
             if bool_decide (p ∈ D) then None else fs !! p) ∧
       (∀ p, (clean_backup_dir d max_backups port file_type fs2).2 !! p =
             if bool_decide (p ∈ D) then None else fs2 !! p)).
Proof.
  intros sfx. split.
  - intros f Hf.
    destruct (clean_backup_dir_removed d max_backups port file_type fs) as (D & HD & _ & ->).
    rewrite bool_decide_eq_false_2; [done|].
    intros (g & Hg & Heq)%HD. apply entry_path_inj in Heq. subst g.
    apply elem_of_matching in Hg as [_ Hg]. fold sfx in Hg. congruence.
  - intros fs2 Hd Hd2 Hsame Hnodes. rewrite Forall_forall in Hnodes.
    rewrite (clean_backup_dir_unfold d max_backups port file_type fs Hd).
    rewrite (clean_backup_dir_unfold d max_backups port file_type fs2 Hd2).
    cbv zeta. fold sfx. rewrite Hsame.
    destruct (_ <=? max_backups).
    { split; [done|]. exists []. done. }
    assert (removal_plan fs2 d sfx max_backups = removal_plan fs d sfx max_backups) as ->.
    { unfold removal_plan. rewrite Hsame. do 2 f_equal.
      apply list_fmap_ext. intros _ f Hf%list_elem_of_lookup_2.
      unfold mtime_at. by rewrite (Hnodes f Hf). }
    set (plan := removal_plan fs d sfx max_backups).
    destruct (remove_files_agree plan fs fs2) as
      (done_ & rest & Hsplit & Hres & Hlook & Hlook2 & _).
    { intros x Hx. apply elem_of_removal_plan in Hx as (f & Hf & ->). simpl.
      symmetry. by apply Hnodes. }
    assert (NoDup done_.*1) as Hnd.
    { pose proof (NoDup_removal_plan fs d sfx max_backups) as Hnd.
      fold plan in Hnd. rewrite Hsplit, fmap_app in Hnd.
      by apply NoDup_app in Hnd as [? _]. }
    assert (∀ p, p ∈ done_.*1 → ∃ f, f ∈ matching fs d sfx ∧ p = entry_path d f) as Hsub.
    { intros p Hp. apply list_elem_of_fmap in Hp as (x & -> & Hx).
      assert (x ∈ plan) as Hxp by (rewrite Hsplit; apply elem_of_app; by left).
      apply elem_of_removal_plan in Hxp as (f & Hf & ->). eauto. }
    destruct (remove_files plan fs) as [r fs'] eqn:Hrun.
    destruct (remove_files plan fs2) as [r2 fs2'] eqn:Hrun2.
    simpl in Hres, Hlook, Hlook2. subst r2.
    pose proof (length_matching_after_removal fs fs' d sfx _ Hlook Hnd Hsub) as Hlen.
    pose proof (length_matching_after_removal fs2 fs2' d sfx _ Hlook2 Hnd) as Hlen2.
    rewrite Hsame in Hlen2. specialize (Hlen2 Hsub).
    assert (length (matching fs2' d sfx) = length (matching fs' d sfx)) as -> by lia.
    destruct r as [[]|e]; simpl; (split; [done|]); by exists done_.*1.
Qed.

(** ** The polling loop *)

Lemma wait_for_save_calls r clk t0 b timeout fuel s ret s' :
  wait_for_save r clk t0 b timeout fuel s = Some (ret, s') →
  ∃ more, calls s' = calls s ++ more.
Proof.
  revert s. induction fuel as [|fuel IH]; intros s; [done|].
  simpl. destruct (negb _).
  - intros [= <- <-]. simpl. eauto.
  - destruct (_ >? timeout).
    + intros [= <- <-]. simpl. rewrite <- app_assoc. eauto.
    + intros Hrun. apply IH in Hrun as [more Hmore]. simpl in Hmore.
      rewrite <- !app_assoc in Hmore. eauto.
Qed.

Lemma wait_for_save_ok r clk t0 b timeout k :
  ∀ fuel s,
    (∀ j, (j < k)%nat →
          lastsave_at r (polls s + j) = t0 ∧ clk (ticks s + j)%nat - b ≤ timeout) →
    lastsave_at r (polls s + k) ≠ t0 →
    (k < fuel)%nat →
    ∃ s', wait_for_save r clk t0 b timeout fuel s = Some ("ok", s') ∧
          polls s' = (polls s + k + 1)%nat ∧ ticks s' = (ticks s + k)%nat.
Proof.
  induction k as [|k IH]; intros fuel s Hbefore Hchange Hfuel.
  - destruct fuel as [|fuel]; [lia|]. simpl.
    rewrite Nat.add_0_r in Hchange.
    destruct (Z.eqb_spec (lastsave_at r (polls s)) t0) as [?|_]; [done|]. simpl.
    eexists. split; [done|]. simpl. lia.
  - destruct fuel as [|fuel]; [lia|]. simpl.
    destruct (Hbefore 0%nat ltac:(lia)) as [Hsame Hin]. rewrite Nat.add_0_r in Hsame, Hin.
    rewrite Hsame, Z.eqb_refl. simpl.
    destruct (Z.gtb_spec (clk (ticks s) - b) timeout) as [?|_]; [lia|].
    destruct (IH fuel (sleep 1 {| polls := S (polls s); ticks := S (ticks s);
                                   calls := (calls s ++ [CallLastsave]) ++ [CallNow] |}))
      as (s' & Hrun & Hp & Ht).
    + intros j Hj. simpl. specialize (Hbefore (S j) ltac:(lia)).
      by rewrite !Nat.add_succ_r in Hbefore.
    + simpl. by rewrite Nat.add_succ_r in Hchange.
    + lia.
    + exists s'. split; [done|]. simpl in Hp, Ht. lia.
Qed.

Lemma wait_for_save_timeout r clk t0 b timeout k :
  ∀ fuel s,
    (∀ j, (j ≤ k)%nat → lastsave_at r (polls s + j) = t0) →
    (∀ j, (j < k)%nat → clk (ticks s + j)%nat - b ≤ timeout) →
    clk (ticks s + k)%nat - b > timeout →
    (k < fuel)%nat →
    ∃ s', wait_for_save r clk t0 b timeout fuel s = Some ("timeout", s') ∧
          polls s' = (polls s + k + 1)%nat ∧ ticks s' = (ticks s + k + 1)%nat.
Proof.
  induction k as [|k IH]; intros fuel s Hsame Hin Hout Hfuel.
  - destruct fuel as [|fuel]; [lia|]. simpl.
    pose proof (Hsame 0%nat ltac:(lia)) as H0. rewrite Nat.add_0_r in H0, Hout.
    rewrite H0, Z.eqb_refl. simpl.
    destruct (Z.gtb_spec (clk (ticks s) - b) timeout) as [_|?]; [|lia].
    eexists. split; [done|]. simpl. lia.
  - destruct fuel as [|fuel]; [lia|]. simpl.
    pose proof (Hsame 0%nat ltac:(lia)) as H0. rewrite Nat.add_0_r in H0.
    pose proof (Hin 0%nat ltac:(lia)) as Hin0. rewrite Nat.add_0_r in Hin0.
    rewrite H0, Z.eqb_refl. simpl.
    destruct (Z.gtb_spec (clk (ticks s) - b) timeout) as [?|_]; [lia|].
    destruct (IH fuel (sleep 1 {| polls := S (polls s); ticks := S (ticks s);
                                   calls := (calls s ++ [CallLastsave]) ++ [CallNow] |}))
      as (s' & Hrun & Hp & Ht).
    + intros j Hj. simpl. specialize (Hsame (S j) ltac:(lia)).
      by rewrite Nat.add_succ_r in Hsame.
    + intros j Hj. simpl. specialize (Hin (S j) ltac:(lia)).
      by rewrite Nat.add_succ_r in Hin.
    + simpl. by rewrite Nat.add_succ_r in Hout.
    + lia.
    + exists s'. split; [done|]. simpl in Hp, Ht. lia.
Qed.

(** ** Claim C3 *)

(** C3 (the save trigger).  [bgsave_and_wait] reads the last-save marker
    [t0] before it sends [BGSAVE]: its first three calls are the clock
    reading, [LASTSAVE] and [BGSAVE], in this order.  When [BGSAVE] is
    rejected it returns ['failed'] at once, with no further call.
    Otherwise, with [k] polls that found the marker unchanged and the
    deadline not passed, it returns ['ok'] at the next poll that finds the
    marker different from [t0], without reading the clock at that poll
    (so whatever the elapsed time is by then); and it returns ['timeout']
    at the first poll at which the marker is still [t0] and the time
    elapsed since the start exceeds the timeout. *)
Theorem bgsave_and_wait_outcomes (r : redis) (clk : clock) (timeout : Z) :
  let t0 := lastsave_at r 0 in
  let bgsave_begin := clk 0%nat in
  (∀ fuel ret s,
     bgsave_and_wait r clk timeout fuel = Some (ret, s) →
     ∃ more, calls s = [CallNow; CallLastsave; CallBgsave] ++ more) ∧
  (bgsave_reply r = false →
   ∀ fuel,
     bgsave_and_wait r clk timeout fuel =
     Some ("failed", {| polls := 1; ticks := 1;
                        calls := [CallNow; CallLastsave; CallBgsave] |})) ∧
  (bgsave_reply r = true →
   ∀ k,
     (∀ j, (j < k)%nat →
           lastsave_at r (S j) = t0 ∧ clk (S j) - bgsave_begin ≤ timeout) →
     lastsave_at r (S k) ≠ t0 →
     ∀ fuel, (k < fuel)%nat →
       ∃ s, bgsave_and_wait r clk timeout fuel = Some ("ok", s) ∧
            polls s = S (S k) ∧ ticks s = S k) ∧
  (bgsave_reply r = true →
   ∀ k,
     (∀ j, (j ≤ k)%nat → lastsave_at r (S j) = t0) →
     (∀ j, (j < k)%nat → clk (S j) - bgsave_begin ≤ timeout) →
     clk (S k) - bgsave_begin > timeout →
     ∀ fuel, (k < fuel)%nat →
       ∃ s, bgsave_and_wait r clk timeout fuel = Some ("timeout", s) ∧
            polls s = S (S k) ∧ ticks s = S (S k)).
Proof.
  intros t0 bgsave_begin. unfold bgsave_and_wait. simpl.
  split; [|split; [|split]].
  - intros fuel ret s. destruct (bgsave_reply r).
    + intros Hrun. apply wait_for_save_calls in Hrun as [more ->]. simpl. eauto.
    + intros [= <- <-]. simpl. by exists [].
  - by intros ->.
  - intros -> k Hbefore Hchange fuel Hfuel.
    destruct (wait_for_save_ok r clk t0 bgsave_begin timeout k fuel
                {| polls := 1; ticks := 1; calls := [CallNow; CallLastsave; CallBgsave] |})
      as (s' & Hrun & Hp & Ht); [exact Hbefore|exact Hchange|exact Hfuel|].
    exists s'. split; [exact Hrun|]. simpl in Hp, Ht. lia.
  - intros -> k Hsame Hin Hout fuel Hfuel.
    destruct (wait_for_save_timeout r clk t0 bgsave_begin timeout k fuel
                {| polls := 1; ticks := 1; calls := [CallNow; CallLastsave; CallBgsave] |})
      as (s' & Hrun & Hp & Ht); [exact Hsame|exact Hin|exact Hout|exact Hfuel|].
    exists s'. split; [exact Hrun|]. simpl in Hp, Ht. lia.
Qed.

(** ** The verified copy *)

Lemma fs_isdir_exists (fs : FS) p : fs_isdir fs p = true → fs_exists fs p = true.
Proof.
  unfold fs_isdir, fs_exists. by destruct (fs !! p) as [[?|?]|].
Qed.

Lemma fs_isfile_insert_file (fs : FS) q data t p :
  fs_isfile fs p = true → fs_isfile (<[q := File data t]> fs) p = true.
Proof.
  unfold fs_isfile. destruct (decide (q = p)) as [->|Hne].
  - by rewrite lookup_insert_eq.
  - by rewrite lookup_insert_ne.
Qed.

Lemma os_mkdir_keeps E name (fs : FS) r fs' p nd :
  os_mkdir E name fs = (r, fs') → fs !! p = Some nd → fs' !! p = Some nd.
Proof.
  unfold os_mkdir. destruct (fs_exists fs name) eqn:Hex.
  - by intros [= _ <-].
  - destruct (parent_check fs name); [by intros [= _ <-]|].
    intros [= _ <-] Hp. rewrite lookup_insert_ne; [done|].
    intros ->. unfold fs_exists in Hex. apply bool_decide_eq_false_1 in Hex.
    apply Hex. eauto.
Qed.

Lemma os_makedirs_rec_keeps E fuel name (fs : FS) r fs' p nd :
  os_makedirs_rec E fuel name fs = (r, fs') → fs !! p = Some nd → fs' !! p = Some nd.
Proof.
  revert name fs r fs'. induction fuel as [|fuel IH]; intros name fs r fs'; simpl.
  - by intros [= _ <-].
  - destruct (path_split name) as [head tail].
    destruct (if String.eqb tail EmptyString then path_split head else (head, tail)) as [head' tail'].
    unfold bind, os_path_exists.
    destruct (negb (String.eqb head' EmptyString) && negb (String.eqb tail' EmptyString)
              && negb (fs_exists fs head')).
    + destruct (os_makedirs_rec E fuel head' fs) as [r1 fs1] eqn:Hrec.
      intros Hrun Hp. pose proof (IH _ _ _ _ Hrec Hp) as Hp1.
      destruct r1 as [[]|e].
      * destruct (String.eqb tail' ".").
        -- by injection Hrun as _ <-.
        -- by eapply os_mkdir_keeps.
      * destruct e as [[]| | | | | | |]; try by injection Hrun as _ <-.
        destruct (String.eqb tail' ".").
        -- by injection Hrun as _ <-.
        -- by eapply os_mkdir_keeps.
    + apply os_mkdir_keeps.
Qed.

Lemma shutil_copy2_run (src dst : string) (fs : FS) r fs' :
  shutil_copy2 src dst fs = (r, fs') →
  fs' = fs ∨
  ∃ data t target, fs !! src = Some (File data t) ∧ fs' = <[target := File data t]> fs ∧
                   r = Ret tt ∧ (fs_isdir fs dst = false → target = dst).
Proof.
  unfold shutil_copy2, bind, os_path_isdir.
  set (target := if fs_isdir fs dst then path_join dst (basename src) else dst).
  destruct (String.eqb src target && fs_exists fs src); [intros [= _ <-]; by left|].
  destruct (fs !! src) as [[data t|?]|] eqn:Hsrc; try (intros [= _ <-]; by left).
  destruct (fs !! target) as [[? ?|?]|] eqn:Htgt; try (intros [= _ <-]; by left).
  - destruct (parent_check fs target); [intros [= _ <-]; by left|].
    intros [= <- <-]. right. exists data, t, target. repeat split; try done.
    intros Hd. unfold target. by rewrite Hd.
  - destruct (parent_check fs target); [intros [= _ <-]; by left|].
    intros [= <- <-]. right. exists data, t, target. repeat split; try done.
    intros Hd. unfold target. by rewrite Hd.
Qed.

Lemma shutil_copy2_keeps_files (src dst : string) (fs : FS) r fs' :
  shutil_copy2 src dst fs = (r, fs') →
  ∀ p, fs_isfile fs p = true → fs_isfile fs' p = true.
Proof.
  intros Hrun p Hp. apply shutil_copy2_run in Hrun as [->|(data & t & q & _ & -> & _)]; [done|].
  by apply fs_isfile_insert_file.
Qed.

Lemma store_writes_keeps_files E data_file (fs : FS) :
  ∀ p, fs_isfile fs p = true → fs_isfile (store_writes E data_file fs).2 p = true.
Proof.
  intros p. unfold store_writes. destruct (writer E data_file) as [[data t]|]; [|done].
  destruct (fs !! data_file) as [[? ?|?]|]; try done. simpl.
  apply fs_isfile_insert_file.
Qed.

Lemma store_writes_ret E data_file (fs : FS) : (store_writes E data_file fs).1 = Ret tt.
Proof.
  unfold store_writes. destruct (writer E data_file) as [[data t]|]; [|done].
  by destruct (fs !! data_file) as [[? ?|?]|].
Qed.

Lemma checksum_compare_inv E src dst (fs : FS) r fs' :
  checksum_compare E src dst fs = (r, fs') →
  fs' = fs ∧ ∀ v, r = Ret v → fs_isfile fs src = true ∧ fs_isfile fs dst = true.
Proof.
  unfold checksum_compare, bind, os_path_isfile, py_assert, file_md5, read_file, ret, raise.
  destruct (fs_isfile fs src) eqn:Hs; simpl.
  - destruct (fs_isfile fs dst) eqn:Hd; simpl.
    + unfold bind, read_file, ret.
      destruct (fs !! src) as [[? ?|?]|]; destruct (fs !! dst) as [[? ?|?]|];
        intros [= <- <-]; split; try done.
    + intros [= <- <-]. split; [done|]. intros v [=].
  - intros [= <- <-]. split; [done|]. intros v [=].
Qed.

(** ** The fuel of [os_makedirs] is enough *)

Lemma rstrip_slash_length s : (String.length (rstrip_slash s) ≤ String.length s)%nat.
Proof.
  induction s as [|c s IH]; simpl; [done|].
  destruct (rstrip_slash s); simpl in *.
  - destruct (Ascii.eqb c slash); simpl; lia.
  - lia.
Qed.

Lemma rcut_length p :
  (String.length (rcut p).1 + String.length (rcut p).2 = String.length p)%nat.
Proof.
  induction p as [|c p IH]; simpl; [done|].
  destruct (rcut p) as [h t]. simpl in IH.
  destruct h; simpl in *.
  - destruct (Ascii.eqb c slash); simpl; lia.
  - lia.
Qed.

Lemma path_split_length p :
  (String.length (path_split p).1 + String.length (path_split p).2 ≤ String.length p)%nat.
Proof.
  unfold path_split. pose proof (rcut_length p) as Hcut.
  destruct (rcut p) as [h t]. simpl in Hcut.
  pose proof (rstrip_slash_length h) as Hstrip.
  destruct (rstrip_slash h); simpl in *; lia.
Qed.

Lemma os_mkdir_no_runtime_error E name (fs : FS) :
  (os_mkdir E name fs).1 ≠ Raise RuntimeError.
Proof.
  unfold os_mkdir. destruct (fs_exists fs name); [done|].
  by destruct (parent_check fs name).
Qed.

(** [os_makedirs] never runs out of fuel. *)
Lemma os_makedirs_rec_fuel E fuel :
  ∀ name (fs : FS), (String.length name < fuel)%nat →
    (os_makedirs_rec E fuel name fs).1 ≠ Raise RuntimeError.
Proof.
  induction fuel as [|fuel IH]; intros name fs Hfuel; [lia|]. simpl.
  pose proof (path_split_length name) as Hlen.
  destruct (path_split name) as [head tail]. simpl in Hlen.
  assert (∃ head' tail',
            (if String.eqb tail EmptyString then path_split head else (head, tail))
              = (head', tail') ∧
            (String.length head' + String.length tail' ≤ String.length name)%nat)
    as (head' & tail' & -> & Hlen').
  { destruct (String.eqb tail EmptyString).
    - pose proof (path_split_length head) as Hlen2.
      destruct (path_split head) as [h2 t2]. simpl in Hlen2.
      exists h2, t2. split; [done|]. lia.
    - exists head, tail. split; [done|]. lia. }
  unfold bind, os_path_exists.
  destruct (String.eqb_spec head' EmptyString) as [?|_]; simpl;
    [apply os_mkdir_no_runtime_error|].
  destruct (String.eqb_spec tail' EmptyString) as [?|Htail]; simpl;
    [apply os_mkdir_no_runtime_error|].
  destruct (fs_exists fs head'); simpl; [apply os_mkdir_no_runtime_error|].
  assert (String.length head' < fuel)%nat as Hhead.
  { destruct tail'; [done|]. simpl in Hlen'. lia. }
  specialize (IH head' fs Hhead).
  destruct (os_makedirs_rec E fuel head' fs) as [[[]|e] fs1]; simpl in *.
  - destruct (String.eqb tail' "."); [done|apply os_mkdir_no_runtime_error].
  - destruct e as [[]| | | | | | |]; try done.
    destruct (String.eqb tail' "."); [done|apply os_mkdir_no_runtime_error].
Qed.

Lemma os_makedirs_fuel E name (fs : FS) : (os_makedirs E name fs).1 ≠ Raise RuntimeError.
Proof. apply os_makedirs_rec_fuel. lia. Qed.

Lemma copy_and_verify_run E data_file backup_path (fs : FS) r fs' :
  copy_and_verify E data_file backup_path fs = (r, fs') →
  (∀ p, fs_isfile fs p = true → fs_isfile fs' p = true) ∧
  match r with
  | Ret v => (v = VNone ∨ v = VStr backup_path) ∧ fs_isfile fs' backup_path = true
  | Raise _ => True
  end.
Proof.
  unfold copy_and_verify. unfold bind at 1.
  destruct (shutil_copy2 data_file backup_path fs) as [r1 fs1] eqn:Hcopy.
  pose proof (shutil_copy2_keeps_files _ _ _ _ _ Hcopy) as Hk1.
  destruct r1 as [[]|e]; [|intros [= <- <-]; by split].
  unfold bind at 1.
  pose proof (store_writes_keeps_files E data_file fs1) as Hk2.
  pose proof (store_writes_ret E data_file fs1) as Hr2.
  destruct (store_writes E data_file fs1) as [r2 fs2]. simpl in Hk2, Hr2. subst r2.
  unfold bind at 1.
  destruct (checksum_compare E data_file backup_path fs2) as [r3 fs3] eqn:Hcmp.
  apply checksum_compare_inv in Hcmp as [-> Hfiles].
  destruct r3 as [same|e]; [|intros [= <- <-]; split; [auto|done]].
  destruct (Hfiles same eq_refl) as [_ Hdst].
  destruct same; simpl.
  - unfold bind, os_path_getsize, ret.
    pose proof Hdst as Hnode. unfold fs_isfile in Hnode.
    destruct (fs2 !! backup_path) as [[? ?|?]|]; try done.
    intros [= <- <-]. split; [auto|]. split; [auto|done].
  - intros [= <- <-]. split; [auto|]. split; [auto|done].
Qed.

Lemma copy_data_file_run E data_file backup_dir backup_filename port file_type
    (fs : FS) r fs' :
  copy_data_file E data_file backup_dir backup_filename port file_type fs = (r, fs') →
  (∀ p, fs_isfile fs p = true → fs_isfile fs' p = true) ∧
  match r with
  | Ret v =>
      v = VNone ∨
      ∃ src, fs !! data_file = Some src ∧
             v = VStr (backup_path_of E backup_dir backup_filename file_type (node_mtime src)) ∧
             fs_isfile fs' (backup_path_of E backup_dir backup_filename file_type
                              (node_mtime src)) = true
  | Raise _ => True
  end.
Proof.
  unfold copy_data_file. unfold bind at 1. unfold os_path_getmtime.
  destruct (fs !! data_file) as [src|] eqn:Hsrc; [|intros [= <- <-]; by split].
  fold (backup_path_of E backup_dir backup_filename file_type (node_mtime src)).
  set (backup_path := backup_path_of _ _ _ _ _).
  unfold bind at 1. unfold os_path_exists at 1.
  destruct (fs_exists fs backup_dir); simpl.
  - unfold bind at 1. unfold os_path_isdir.
    destruct (fs_isdir fs backup_dir); simpl; [|intros [= <- <-]; split; auto].
    unfold bind at 1. unfold os_path_exists.
    destruct (fs_exists fs backup_path); [intros [= <- <-]; split; auto|].
    intros Hrun. apply copy_and_verify_run in Hrun as [Hk Hr]. split; [done|].
    destruct r as [v|e]; [|done]. destruct Hr as [[->| ->] Hfile]; [by left|].
    right. by exists src.
  - unfold bind at 1.
    destruct (os_makedirs E backup_dir fs) as [r1 fs1] eqn:Hmk.
    assert (∀ p, fs_isfile fs p = true → fs_isfile fs1 p = true) as Hk1.
    { intros p. unfold fs_isfile. destruct (fs !! p) as [[data t|?]|] eqn:Hp; try done.
      intros _. unfold os_makedirs in Hmk.
      by rewrite (os_makedirs_rec_keeps _ _ _ _ _ _ _ _ Hmk Hp). }
    destruct r1 as [[]|e]; [|intros [= <- <-]; by split].
    intros Hrun. apply copy_and_verify_run in Hrun as [Hk Hr]. split; [auto|].
    destruct r as [v|e]; [|done]. destruct Hr as [[->| ->] Hfile]; [by left|].
    right. by exists src.
Qed.

(** ** Claim C7 *)

(** C7 (no overwrite).  For every copy where the backup directory exists
    as a directory and the destination derived from the modification time
    of the data file already exists, [copy_data_file] returns [None] and
    the file system is left exactly as it was: the destination keeps its
    content and nothing is created. *)
Theorem copy_data_file_refuses_existing (E : env)
    (data_file backup_dir backup_filename : string) (port : Z) (file_type : string)
    (fs : FS) (src : node) :
  fs !! data_file = Some src →
  fs_isdir fs backup_dir = true →
  fs_exists fs (backup_path_of E backup_dir backup_filename file_type (node_mtime src)) = true →
  copy_data_file E data_file backup_dir backup_filename port file_type fs = (Ret VNone, fs).
Proof.
  intros Hsrc Hdir Hdst.
  unfold copy_data_file. unfold bind at 1. unfold os_path_getmtime. rewrite Hsrc.
  fold (backup_path_of E backup_dir backup_filename file_type (node_mtime src)).
  unfold bind at 1. unfold os_path_exists at 1.
  rewrite (fs_isdir_exists _ _ Hdir). simpl.
  unfold bind at 1. unfold os_path_isdir. rewrite Hdir. simpl.
  unfold bind at 1. unfold os_path_exists. by rewrite Hdst.
Qed.

(** ** Claim C1 *)

(** C1, as amended (a copy that fails verification).  For every copy in
    which the destination is written and the comparison of the checksums
    then fails, [copy_data_file] returns [None] and does not touch the
    destination again: the file system it leaves is the one the comparison
    ran on, in which the destination is still a regular file. *)
Theorem copy_data_file_mismatch_keeps_copy (E : env)
    (data_file backup_dir backup_filename : string) (port : Z) (file_type : string)
    (fs fs1 fs2 fs3 : FS) (src : node) :
  let backup_path := backup_path_of E backup_dir backup_filename file_type (node_mtime src) in
  fs !! data_file = Some src →
  (fs_exists fs backup_dir = false ∧ os_makedirs E backup_dir fs = (Ret tt, fs1) ∨
   fs_isdir fs backup_dir = true ∧ fs_exists fs backup_path = false ∧ fs1 = fs) →
  shutil_copy2 data_file backup_path fs1 = (Ret tt, fs2) →
  checksum_compare E data_file backup_path (store_writes E data_file fs2).2 = (Ret false, fs3) →
  copy_data_file E data_file backup_dir backup_filename port file_type fs = (Ret VNone, fs3) ∧
  fs3 = (store_writes E data_file fs2).2 ∧
  fs_isfile fs3 backup_path = true.
Proof.
  intros backup_path Hsrc Hreach Hcopy Hcmp.
  assert (copy_and_verify E data_file backup_path fs1 = (Ret VNone, fs3)) as Htail.
  { unfold copy_and_verify. unfold bind at 1. rewrite Hcopy. unfold bind at 1.
    pose proof (store_writes_ret E data_file fs2) as Hr.
    destruct (store_writes E data_file fs2) as [r2 fs2']. simpl in Hr, Hcmp. subst r2.
    unfold bind. by rewrite Hcmp. }
  pose proof Hcmp as Hinv. apply checksum_compare_inv in Hinv as [-> Hfiles].
  destruct (Hfiles false eq_refl) as [_ Hdst].
  split; [|by split].
  unfold copy_data_file. unfold bind at 1. unfold os_path_getmtime. rewrite Hsrc.
  fold (backup_path_of E backup_dir backup_filename file_type (node_mtime src)).
  fold backup_path.
  unfold bind at 1. unfold os_path_exists at 1.
  destruct Hreach as [[Hex Hmk]|(Hdir & Hex & ->)].
  - rewrite Hex. simpl. unfold bind at 1. by rewrite Hmk.
  - rewrite (fs_isdir_exists _ _ Hdir). simpl.
    unfold bind at 1. unfold os_path_isdir. rewrite Hdir. simpl.
    unfold bind at 1. unfold os_path_exists. by rewrite Hex.
Qed.

(** ** The orchestrator *)

Lemma append_nonempty_r (a b : string) : b ≠ EmptyString → a +:+ b ≠ EmptyString.
Proof.
  intros Hb Hab. apply (f_equal String.length) in Hab. rewrite append_length in Hab.
  destruct b; [done|]. simpl in Hab. lia.
Qed.

Lemma path_join_nonempty (a b : string) : b ≠ EmptyString → path_join a b ≠ EmptyString.
Proof.
  intros Hb. unfold path_join. destruct (strip_prefix "/" b); [done|].
  destruct (_ || _).
  - by apply append_nonempty_r.
  - by apply append_nonempty_r, append_nonempty_r.
Qed.

Lemma backup_path_of_truthy E d tmpl ft t : truthy (VStr (backup_path_of E d tmpl ft t)) = true.
Proof.
  simpl. apply negb_true_iff. apply String.eqb_neq.
  apply path_join_nonempty, append_nonempty_r. done.
Qed.

Lemma copy_data_file_truthy E data_file backup_dir backup_filename port file_type
    (fs : FS) v fs' :
  copy_data_file E data_file backup_dir backup_filename port file_type fs = (Ret v, fs') →
  truthy v = true →
  ∃ p, v = VStr p ∧ fs_isfile fs' p = true.
Proof.
  intros Hrun Hv. apply copy_data_file_run in Hrun as [_ [->|(src & _ & -> & Hfile)]]; [done|].
  eauto.
Qed.

Lemma rdb_path_aof_path r rdb name : rdb_path r = Ret rdb → ∃ aof, aof_path r name = Ret aof.
Proof.
  unfold rdb_path, aof_path. destruct (config_get r "dir"); [eauto|done].
Qed.

(** ** Claim C6 *)

(** C6 (no copy without a completed save).  For every run in which
    [bgsave_and_wait] returns anything other than ['ok'], [main] ends with
    [sys.exit(1)] before any copy: the file system is left exactly as it
    was and the exit status is 1. *)
Theorem main_aborts_when_save_not_ok (E : env) (a : args) (r : redis) (clk : clock)
    (fuel : nat) (fs : FS) (rdb ret_ : string) (s : session) :
  rdb_path r = Ret rdb →
  bgsave_and_wait r clk (timedelta_seconds (bgsave_timeout a)) fuel = Some (ret_, s) →
  ret_ ≠ "ok" →
  main E a r clk fuel fs = Some (Raise (SystemExit 1), fs) ∧
  exit_status (Raise (SystemExit 1) : res unit) = 1.
Proof.
  intros Hrdb Hsave Hret. split; [|done].
  unfold main. rewrite Hrdb.
  destruct (rdb_path_aof_path r rdb (aof_filename a) Hrdb) as [aof Haof].
  rewrite Haof, Hsave.
  apply String.eqb_neq in Hret. rewrite Hret.
  by destruct (with_aof a).
Qed.

(** ** Claim C2 *)


(** ** Claim C5 *)

(** C5, as amended (a failure while pruning).  For every run in which the
    save and all enabled copies succeed, an exception raised by
    [clean_rdb_backup] or by [clean_aof_backup] is not caught: [main] ends
    with that exception, in the file system the failing call left, and the
    exit status is 1. *)
Theorem main_pruning_failure_is_fatal (E : env) (a : args) (r : redis) (clk : clock)
    (fuel : nat) (fs fs1 fs2 fs' : FS) (rdb aof : string) (s : session)
    (rdb_bak_path : value) (e : exn) :
  rdb_path r = Ret rdb →
  aof_path r (aof_filename a) = Ret aof →
  bgsave_and_wait r clk (timedelta_seconds (bgsave_timeout a)) fuel = Some ("ok", s) →
  copy_rdb E rdb (backup_dir a) (backup_filename a) (redis_port a) fs
    = (Ret rdb_bak_path, fs1) →
  truthy rdb_bak_path = true →
  (if with_aof a
   then ∃ aof_bak_path,
          copy_aof E aof (backup_dir a) (backup_filename a) (redis_port a) fs1
            = (Ret aof_bak_path, fs2) ∧ truthy aof_bak_path = true
   else fs2 = fs1) →
  (clean_rdb_backup (backup_dir a) (max_backups a) (redis_port a) fs2 = (Raise e, fs') ∨
   ∃ v fs3,
     with_aof a = true ∧
     clean_rdb_backup (backup_dir a) (max_backups a) (redis_port a) fs2 = (Ret v, fs3) ∧
     clean_aof_backup (backup_dir a) (max_backups a) (redis_port a) fs3 = (Raise e, fs')) →
  main E a r clk fuel fs = Some (Raise e, fs') ∧
  exit_status (Raise e : res unit) = 1.
Proof.
  intros Hrdb Haof Hsave Hcopy1 Htruthy Hcopy2 Hprune. split.
  - unfold main. rewrite Hrdb, Hsave.
    assert ((if with_aof a then aof_path r (aof_filename a) else Ret EmptyString) =
            Ret (if with_aof a then aof else EmptyString)) as -> by (by destruct (with_aof a)).
    simpl negb. cbv iota. f_equal.
    unfold bind at 1. rewrite Hcopy1, Htruthy.
    change (negb true) with false. cbv beta iota.
    unfold bind at 1.
    assert ((if with_aof a
             then do aof_bak_path <-
                    copy_aof E (if with_aof a then aof else EmptyString) (backup_dir a)
                      (backup_filename a) (redis_port a);
                  if negb (truthy aof_bak_path)
                  then do_ os_remove_value rdb_bak_path; sys_exit 1
                  else ret ()
             else ret ()) fs1 = (Ret (), fs2)) as ->.
    { destruct (with_aof a).
      - destruct Hcopy2 as (v & Hcopy2 & Hv). unfold bind. by rewrite Hcopy2, Hv.
      - by subst fs2. }
    unfold bind at 1.
    destruct Hprune as [Hprune|(v & fs3 & Hon & Hprune1 & Hprune2)].
    + by rewrite Hprune.
    + rewrite Hprune1, Hon. unfold bind. by rewrite Hprune2.
  - assert (e = AssertionError ∨ ∃ code, e = OSError code) as [->|[code ->]]; [|done..].
    destruct Hprune as [Hprune|(v & fs3 & _ & _ & Hprune)].
    + pose proof (clean_backup_dir_result (backup_dir a) (max_backups a) (redis_port a)
                    "rdb" fs2) as Hres.
      unfold clean_rdb_backup in Hprune. by rewrite Hprune in Hres.
    + pose proof (clean_backup_dir_result (backup_dir a) (max_backups a) (redis_port a)
                    "aof" fs3) as Hres.
      unfold clean_aof_backup in Hprune. by rewrite Hprune in Hres.
Qed.

(** ** The claims on concrete runs *)

(** C4 on [retention_fs] with room for one backup: [b] (time 100) and [c]
    (time 200) go, [a] (time 300) stays. *)
Lemma clean_backup_dir_keeps_newest_witness :
  ∃ (deleted : list string) (fs' : FS),
    clean_backup_dir "/backups" 1 6379 "rdb" retention_fs = (Ret VNone, fs') ∧
    NoDup deleted ∧
    (∀ f, f ∈ deleted → f ∈ matching retention_fs "/backups" (file_suffix 6379 "rdb")) ∧
    Z.of_nat (length deleted) =
      Z.of_nat (length (matching retention_fs "/backups" (file_suffix 6379 "rdb"))) - 1 ∧
    (∀ p, fs' !! p =
          if bool_decide (p ∈ entry_path "/backups" <$> deleted) then None
          else retention_fs !! p) ∧
    (∀ f g, f ∈ deleted →
            g ∈ matching retention_fs "/backups" (file_suffix 6379 "rdb") →
            g ∉ deleted →
            mtime_at retention_fs (entry_path "/backups" f) ≤
            mtime_at retention_fs (entry_path "/backups" g)) ∧
    Z.of_nat (length (matching fs' "/backups" (file_suffix 6379 "rdb"))) = 1 ∧
    (∀ g, g ∈ matching fs' "/backups" (file_suffix 6379 "rdb") ↔
          g ∈ matching retention_fs "/backups" (file_suffix 6379 "rdb") ∧ g ∉ deleted).
Proof.
  apply (clean_backup_dir_keeps_newest "/backups" 1 6379 "rdb" retention_fs).
  - vm_compute. reflexivity.
  - vm_compute. reflexivity.
  - lia.
  - vm_compute. repeat constructor.
Defined.

(** C10 on [retention_fs] and [retention_fs_other]: the two differ in the
    entries of other names (and in their times) only, and the same backups
    are removed from both. *)
Lemma clean_backup_dir_ignores_other_entries_witness :
  (clean_backup_dir "/backups" 1 6379 "rdb" retention_fs).2 !! entry_path "/backups" "notes.txt"
    = retention_fs !! entry_path "/backups" "notes.txt" ∧
  (clean_backup_dir "/backups" 1 6379 "rdb" retention_fs_other).1 =
  (clean_backup_dir "/backups" 1 6379 "rdb" retention_fs).1 ∧
  ∃ D : list string,
    (∀ p, (clean_backup_dir "/backups" 1 6379 "rdb" retention_fs).2 !! p =
          if bool_decide (p ∈ D) then None else retention_fs !! p) ∧
    (∀ p, (clean_backup_dir "/backups" 1 6379 "rdb" retention_fs_other).2 !! p =
          if bool_decide (p ∈ D) then None else retention_fs_other !! p).
Proof.
  destruct (clean_backup_dir_ignores_other_entries "/backups" 1 6379 "rdb" retention_fs)
    as [Hframe Hsame].
  split.
  - apply Hframe. vm_compute. reflexivity.
  - apply Hsame.
    + vm_compute. reflexivity.
    + vm_compute. reflexivity.
    + vm_compute. reflexivity.
    + vm_compute. repeat constructor.
Defined.

(** C3 on three servers: one that rejects [BGSAVE], one whose save
    completes before the third poll, and one whose save never completes,
    polled with a timeout of two seconds. *)
Lemma bgsave_and_wait_outcomes_witness :
  bgsave_and_wait refusing_redis sample_clock (timedelta_seconds 60) 0 =
    Some ("failed", {| polls := 1; ticks := 1;
                       calls := [CallNow; CallLastsave; CallBgsave] |}) ∧
  (∃ s, bgsave_and_wait sample_redis sample_clock (timedelta_seconds 60) 3 = Some ("ok", s) ∧
        polls s = 4%nat ∧ ticks s = 3%nat) ∧
  (∃ s, bgsave_and_wait stuck_redis sample_clock (timedelta_seconds 2) 3 = Some ("timeout", s) ∧
        polls s = 4%nat ∧ ticks s = 4%nat).
Proof.
  split; [|split].
  - apply (bgsave_and_wait_outcomes refusing_redis sample_clock (timedelta_seconds 60)).
    reflexivity.
  - apply (bgsave_and_wait_outcomes sample_redis sample_clock (timedelta_seconds 60)).
    + reflexivity.
    + intros [|[|j]] Hj; [vm_compute; split; [reflexivity|discriminate]..|lia].
    + vm_compute. discriminate.
    + lia.
  - apply (bgsave_and_wait_outcomes stuck_redis sample_clock (timedelta_seconds 2)).
    + reflexivity.
    + intros j _. reflexivity.
    + intros [|[|j]] Hj; [vm_compute; discriminate..|lia].
    + vm_compute. reflexivity.
    + lia.
Defined.

(** C7 on [aof_taken_fs]: the aof backup of that time stamp is already
    there. *)
Lemma copy_data_file_refuses_existing_witness :
  copy_data_file quiet_env "/var/lib/redis/appendonly.aof" "/backups"
    "redis_dump_%Y-%m-%d_%H%M%S" 6379 "aof" aof_taken_fs = (Ret VNone, aof_taken_fs).
Proof.
  apply (copy_data_file_refuses_existing quiet_env "/var/lib/redis/appendonly.aof" "/backups"
           "redis_dump_%Y-%m-%d_%H%M%S" 6379 "aof" aof_taken_fs (File "SET k v" 1700000001)).
  - vm_compute. reflexivity.
  - vm_compute. reflexivity.
  - vm_compute. reflexivity.
Defined.

(** C1 on [sample_fs] with a server that appends to the rdb file during the
    verification. *)
Lemma copy_data_file_mismatch_keeps_copy_witness :
  let src := "/var/lib/redis/dump.rdb" in
  let dst := "/backups/redis_dump_2023-11-14_221320.rdb" in
  let written := (shutil_copy2 src dst sample_fs).2 in
  let verified := (checksum_compare busy_env src dst (store_writes busy_env src written).2).2 in
  copy_data_file busy_env src "/backups" "redis_dump_%Y-%m-%d_%H%M%S" 6379 "rdb" sample_fs
    = (Ret VNone, verified) ∧
  verified = (store_writes busy_env src written).2 ∧
  fs_isfile verified dst = true.
Proof.
  intros src dst written verified.
  apply (copy_data_file_mismatch_keeps_copy busy_env src "/backups"
           "redis_dump_%Y-%m-%d_%H%M%S" 6379 "rdb" sample_fs sample_fs written verified
           (File "REDIS0009" 1700000000)).
  - vm_compute. reflexivity.
  - right. split; [|split]; [vm_compute; reflexivity..|reflexivity].
  - apply pair_eta_fst. vm_compute. reflexivity.
  - apply pair_eta_fst. vm_compute. reflexivity.
Defined.

(** The claim C1 as it stands fails on that input: the destination is
    written, the comparison fails, and the destination is still there when
    [copy_data_file] has returned. *)
Lemma copy_data_file_mismatch_not_deleted :
  let src := "/var/lib/redis/dump.rdb" in
  let dst := "/backups/redis_dump_2023-11-14_221320.rdb" in
  let copy := shutil_copy2 src dst sample_fs in
  let run := copy_data_file busy_env src "/backups" "redis_dump_%Y-%m-%d_%H%M%S"
               6379 "rdb" sample_fs in
  copy.1 = Ret tt ∧
  sample_fs !! dst = None ∧
  copy.2 !! dst = Some (File "REDIS0009" 1700000000) ∧
  (checksum_compare busy_env src dst (store_writes busy_env src copy.2).2).1 = Ret false ∧
  run.1 = Ret VNone ∧
  run.2 !! dst = Some (File "REDIS0009" 1700000000) ∧
  ¬ (run.1 = Ret VNone ∧ run.2 !! dst = None).
Proof.
  vm_compute. repeat split; try reflexivity. intros [_ H]. discriminate H.
Qed.

(** C6 on a server that rejects [BGSAVE]. *)
Lemma main_aborts_when_save_not_ok_witness :
  main quiet_env default_args refusing_redis sample_clock 0 sample_fs =
    Some (Raise (SystemExit 1), sample_fs) ∧
  exit_status (Raise (SystemExit 1) : res unit) = 1.
Proof.
  apply (main_aborts_when_save_not_ok quiet_env default_args refusing_redis sample_clock 0
           sample_fs "/var/lib/redis/dump.rdb" "failed"
           {| polls := 1; ticks := 1; calls := [CallNow; CallLastsave; CallBgsave] |}).
  - vm_compute. reflexivity.
  - vm_compute. reflexivity.
  - discriminate.
Defined.



(** C5 on [blocked_fs]: the oldest entry named like a backup is a
    directory, which [os.remove] refuses. *)
Lemma main_pruning_failure_is_fatal_witness :
  let copied := (copy_rdb quiet_env "/var/lib/redis/dump.rdb" "/backups"
                   "redis_dump_%Y-%m-%d_%H%M%S(port_6379)" 6379 blocked_fs).2 in
  main quiet_env port_args sample_redis sample_clock 3 blocked_fs
    = Some (Raise (OSError EISDIR), (clean_rdb_backup "/backups" 1 6379 copied).2) ∧
  exit_status (Raise (OSError EISDIR) : res unit) = 1.
Proof.
  intros copied.
  apply (main_pruning_failure_is_fatal quiet_env port_args sample_redis sample_clock 3
           blocked_fs copied copied (clean_rdb_backup "/backups" 1 6379 copied).2
           "/var/lib/redis/dump.rdb" "/var/lib/redis/appendonly.aof"
           {| polls := 4; ticks := 3;
              calls := [CallNow; CallLastsave; CallBgsave; CallLastsave; CallNow;
                        CallSleep 1; CallLastsave; CallNow; CallSleep 1; CallLastsave] |}
           (VStr "/backups/redis_dump_2023-11-14_221320(port_6379).rdb")).
  - vm_compute. reflexivity.
  - vm_compute. reflexivity.
  - vm_compute. reflexivity.
  - apply pair_eta_fst. vm_compute. reflexivity.
  - reflexivity.
  - reflexivity.
  - left. apply pair_eta_fst. vm_compute. reflexivity.
Defined.

(** The claim C5 as it stands fails on that input: the save and the copy
    succeed, the pruning raises, and the run does not end normally with
    status 0. *)
Lemma main_pruning_failure_not_done :
  let copy := copy_rdb quiet_env "/var/lib/redis/dump.rdb" "/backups"
                "redis_dump_%Y-%m-%d_%H%M%S(port_6379)" 6379 blocked_fs in
  let run := main quiet_env port_args sample_redis sample_clock 3 blocked_fs in
  fst <$> bgsave_and_wait sample_redis sample_clock (timedelta_seconds 60) 3 = Some "ok" ∧
  copy.1 = Ret (VStr "/backups/redis_dump_2023-11-14_221320(port_6379).rdb") ∧
  (clean_rdb_backup "/backups" 1 6379 copy.2).1 = Raise (OSError EISDIR) ∧
  fst <$> run = Some (Raise (OSError EISDIR)) ∧
  fst <$> run ≠ Some (Ret tt) ∧
  exit_status (Raise (OSError EISDIR) : res unit) ≠ 0.
Proof.
  vm_compute. repeat split; try reflexivity; discriminate.
Qed.

(** The claim C9 as it stands fails on [retention_fs]: with room for one
    backup two files are removed and the value returned is [None], not 2;
    with room for five nothing is removed and the value is [None], not 0. *)
Lemma clean_backup_dir_returns_no_count :
  let run := clean_backup_dir "/backups" 1 6379 "rdb" retention_fs in
  let idle := clean_backup_dir "/backups" 5 6379 "rdb" retention_fs in
  run.1 = Ret VNone ∧
  (size retention_fs - size run.2 = 2)%nat ∧
  run.1 ≠ Ret (VInt 2) ∧
  idle.1 = Ret VNone ∧
  size idle.2 = size retention_fs ∧
  idle.1 ≠ Ret (VInt 0).
Proof.
  vm_compute. repeat split; try reflexivity; discriminate.
Qed.

(** ** Claim C8 *)

(** C8 fails on the code (the port is missing from the names of the
    backups).  [copy_data_file] never uses its [port] argument. *)
Lemma copy_data_file_ignores_port (E : env) (data_file backup_dir backup_filename : string)
    (port port' : Z) (file_type : string) :
  copy_data_file E data_file backup_dir backup_filename port file_type =
  copy_data_file E data_file backup_dir backup_filename port' file_type.
Proof. reflexivity. Qed.

(** C8, the code at the failing input.  With the default template and room
    for one backup, a first run on [sample_fs] completes and leaves one rdb
    backup; after a later save of the server, a second run completes with
    status 0 as well and leaves two rdb backups of port 6379 in the backup
    directory, one more than [max_backups]: neither name ends with
    [(port_6379).rdb], so [clean_backup_dir] counts none of them. *)
Theorem main_backups_exceed_limit :
  match main quiet_env keep_one_args sample_redis sample_clock 3 sample_fs with
  | Some (Ret _, fs1) =>
      map_to_list second_run_fs =
        map_to_list (<["/var/lib/redis/dump.rdb" := File "REDIS0009+" 1700003600]> fs1) ∧
      match main quiet_env keep_one_args sample_redis sample_clock 3 second_run_fs with
      | Some (r, fs2) =>
          r = Ret tt ∧
          exit_status r = 0 ∧
          filter (λ f, endswith f ".rdb" = true) (entries fs2 "/backups") =
            ["redis_dump_2023-11-14_231320.rdb"; "redis_dump_2023-11-14_221320.rdb"] ∧
          matching fs2 "/backups" (file_suffix 6379 "rdb") = [] ∧
          max_backups keep_one_args = 1
      | None => False
      end
  | _ => False
  end.
Proof.
  vm_compute. repeat split; reflexivity.
Qed.

(** * Further properties of the script *)

(** ** Suffixes *)

Lemma endswith_app (s suffix : string) :
  endswith s suffix = true ↔ ∃ pre, s = pre +:+ suffix.
Proof.
  induction s as [|c s IH].
  - change (endswith EmptyString suffix) with (String.eqb EmptyString suffix || false).
    rewrite orb_false_r, String.eqb_eq. split.
    + intros <-. by exists EmptyString.
    + intros [pre Hpre]. destruct pre; [done|]. rewrite append_cons in Hpre. discriminate.
  - change (endswith (String c s) suffix)
      with (String.eqb (String c s) suffix || endswith s suffix).
    rewrite orb_true_iff, String.eqb_eq, IH. split.
    + intros [<-|[pre ->]].
      * by exists EmptyString.
      * by exists (String c pre).
    + intros [[|c' pre] Hpre].
      * by left.
      * right. rewrite append_cons in Hpre. injection Hpre as -> ->. by exists pre.
Qed.

Lemma last_char_app (pre s : string) : s ≠ EmptyString → last_char (pre +:+ s) = last_char s.
Proof.
  intros Hs. induction pre as [|c pre IH]; [done|].
  rewrite append_cons. simpl. rewrite IH.
  destruct (pre +:+ s) eqn:Happ; [|done].
  destruct pre; [by subst|]. rewrite append_cons in Happ. discriminate.
Qed.

Lemma endswith_last_char (s suffix : string) :
  suffix ≠ EmptyString → endswith s suffix = true → last_char s = last_char suffix.
Proof. intros Hne [pre ->]%endswith_app. by apply last_char_app. Qed.

Lemma file_suffix_last_char port file_type :
  file_type ≠ EmptyString → last_char (file_suffix port file_type) = last_char file_type.
Proof.
  intros Hne. unfold file_suffix.
  rewrite <- !append_assoc. by apply last_char_app.
Qed.

Lemma file_suffix_nonempty port file_type : file_suffix port file_type ≠ EmptyString.
Proof. done. Qed.

(** A name cannot end with the suffix of the rdb backups and with that of
    the aof backups. *)
Lemma rdb_suffix_not_aof port port' f :
  endswith f (file_suffix port "rdb") = true → endswith f (file_suffix port' "aof") = false.
Proof.
  intros Hrdb. destruct (endswith f (file_suffix port' "aof")) eqn:Haof; [|done].
  apply endswith_last_char in Hrdb; [|apply file_suffix_nonempty].
  apply endswith_last_char in Haof; [|apply file_suffix_nonempty].
  rewrite file_suffix_last_char in Hrdb, Haof by done.
  rewrite Hrdb in Haof. discriminate.
Qed.

(** ** More on retention *)

Lemma clean_backup_dir_returns_bound d max port ft (fs fs' : FS) v :
  clean_backup_dir d max port ft fs = (Ret v, fs') →
  fs_isdir fs' d = true ∧
  Z.of_nat (length (matching fs' d (file_suffix port ft))) ≤ max.
Proof.
  intros Hrun. destruct (fs_isdir fs d) eqn:Hd.
  - rewrite (clean_backup_dir_unfold d max port ft fs Hd) in Hrun. cbv zeta in Hrun.
    destruct (Z.leb_spec (Z.of_nat (length (matching fs d (file_suffix port ft)))) max).
    { injection Hrun as _ <-. by split. }
    set (plan := removal_plan fs d (file_suffix port ft) max) in *.
    destruct (remove_files_agree plan fs fs) as
      (done_ & rest & Hsplit & _ & Hlook & _ & _); [done|].
    destruct (remove_files plan fs) as [[[]|e] fs1]; [|done]. simpl in Hlook.
    destruct (Z.eqb_spec (Z.of_nat (length (matching fs1 d (file_suffix port ft)))) max);
      [|done].
    injection Hrun as _ <-. split; [|lia].
    unfold fs_isdir in *. rewrite Hlook, bool_decide_eq_false_2; [done|].
    intros Hin. apply (removal_plan_not_dir fs d (file_suffix port ft) max).
    fold plan. rewrite Hsplit, fmap_app. apply elem_of_app. by left.
  - destruct (clean_backup_dir_not_dir d max port ft fs Hd) as [code Hraise].
    rewrite Hraise in Hrun. discriminate.
Qed.

(** X12 (retention is idempotent).  When [clean_backup_dir] has returned, a
    second call on the file system it left returns at once and changes
    nothing. *)
Theorem clean_backup_dir_idempotent (d : string) (max_backups port : Z)
    (file_type : string) (fs fs' : FS) (v : value) :
  clean_backup_dir d max_backups port file_type fs = (Ret v, fs') →
  clean_backup_dir d max_backups port file_type fs' = (Ret VNone, fs').
Proof.
  intros Hrun. apply clean_backup_dir_returns_bound in Hrun as [Hd Hbound].
  rewrite (clean_backup_dir_unfold d max_backups port file_type fs' Hd). cbv zeta.
  by destruct (Z.leb_spec (Z.of_nat (length (matching fs' d (file_suffix port file_type))))
                 max_backups); [|lia].
Qed.

(** X13 (a negative limit).  With [max_backups] below zero, on a directory
    whose matching entries are regular files, [clean_backup_dir] removes
    every matching entry and then fails its final assertion: it never
    returns normally. *)
Theorem clean_backup_dir_negative_limit_wipes (d : string) (max_backups port : Z)
    (file_type : string) (fs : FS) :
  let sfx := file_suffix port file_type in
  fs_isdir fs d = true →
  max_backups < 0 →
  Forall (λ f, fs_isfile fs (entry_path d f) = true) (matching fs d sfx) →
  ∃ fs' : FS,
    clean_backup_dir d max_backups port file_type fs = (Raise AssertionError, fs') ∧
    matching fs' d sfx = [] ∧
    (∀ p, fs' !! p =
          if bool_decide (p ∈ entry_path d <$> matching fs d sfx) then None else fs !! p).
Proof.
  intros sfx Hd Hmax Hfiles.
  rewrite (clean_backup_dir_unfold d max_backups port file_type fs Hd). cbv zeta. fold sfx.
  set (files := matching fs d sfx) in *.
  destruct (Z.leb_spec (Z.of_nat (length files)) max_backups); [lia|].
  set (plan := removal_plan fs d sfx max_backups).
  set (g := λ f, (entry_path d f, mtime_at fs (entry_path d f))).
  assert (plan ≡ₚ g <$> files) as Hplan.
  { unfold plan, removal_plan. fold files. rewrite slice_to_take by lia.
    rewrite take_ge; [apply sort_by_mtime_perm|].
    rewrite sort_by_mtime_perm, length_fmap. lia. }
  assert (plan.*1 ≡ₚ entry_path d <$> files) as Hpaths.
  { rewrite Hplan, <- list_fmap_compose. done. }
  assert ((remove_files plan fs).1 = Ret tt) as Hok.
  { apply remove_files_ok; [apply NoDup_removal_plan|].
    apply Forall_forall. intros x Hx. rewrite Hplan in Hx.
    apply list_elem_of_fmap in Hx as (f & -> & Hf). simpl.
    rewrite Forall_forall in Hfiles. by apply Hfiles. }
  destruct (remove_files_agree plan fs fs) as
    (done_ & rest & Hsplit & _ & Hlook & _ & Hrest); [done|].
  specialize (Hrest Hok). subst rest. rewrite app_nil_r in Hsplit. subst done_.
  destruct (remove_files plan fs) as [r fs'] eqn:Hrun. simpl in Hok, Hlook. subst r.
  assert (matching fs' d sfx = []) as Hnone.
  { apply elem_of_nil_inv. intros f Hf.
    apply (matching_after_removal fs fs' d sfx plan.*1 Hlook) in Hf as [Hf Hnot].
    apply Hnot. rewrite Hpaths. by apply list_elem_of_fmap_2. }
  exists fs'. rewrite Hnone. change (Z.of_nat (length (@nil string))) with 0.
  destruct (Z.eqb_spec 0 max_backups); [lia|].
  split; [done|]. split; [done|].
  intros p. rewrite Hlook. apply (f_equal (λ b : bool, if b then None else fs !! p)).
  apply bool_decide_ext. by rewrite Hpaths.
Qed.

(** X15 (the two kinds are pruned apart).  Whatever its outcome,
    [clean_rdb_backup] leaves every entry named like an aof backup as it
    is, and [clean_aof_backup] every entry named like an rdb backup, for
    any ports. *)
Theorem clean_rdb_and_aof_apart (d : string) (max_backups port port' : Z) (fs : FS)
    (f : string) :
  (endswith f (file_suffix port' "aof") = true →
   (clean_rdb_backup d max_backups port fs).2 !! entry_path d f = fs !! entry_path d f) ∧
  (endswith f (file_suffix port' "rdb") = true →
   (clean_aof_backup d max_backups port fs).2 !! entry_path d f = fs !! entry_path d f).
Proof.
  split; intros Hf.
  - unfold clean_rdb_backup.
    destruct (clean_backup_dir_removed d max_backups port "rdb" fs) as (D & HD & _ & ->).
    rewrite bool_decide_eq_false_2; [done|].
    intros (g & Hg & Heq)%HD. apply entry_path_inj in Heq. subst g.
    apply elem_of_matching in Hg as [_ Hg].
    by rewrite (rdb_suffix_not_aof port port' f Hg) in Hf.
  - unfold clean_aof_backup.
    destruct (clean_backup_dir_removed d max_backups port "aof" fs) as (D & HD & _ & ->).
    rewrite bool_decide_eq_false_2; [done|].
    intros (g & Hg & Heq)%HD. apply entry_path_inj in Heq. subst g.
    apply elem_of_matching in Hg as [_ Hg].
    by rewrite (rdb_suffix_not_aof port' port f Hf) in Hg.
Qed.

(** ** The comparison of checksums *)

Lemma checksum_compare_files E src dst (fs : FS) d1 t1 d2 t2 :
  fs !! src = Some (File d1 t1) → fs !! dst = Some (File d2 t2) →
  checksum_compare E src dst fs = (Ret (N.eqb (md5 E d1) (md5 E d2)), fs).
Proof.
  intros Hsrc Hdst.
  unfold checksum_compare, bind, os_path_isfile, fs_isfile, py_assert, file_md5, read_file, ret.
  rewrite Hsrc, Hdst. simpl. unfold bind, read_file, ret. by rewrite Hsrc, Hdst.
Qed.

Lemma checksum_compare_raises E src dst (fs : FS) e :
  (checksum_compare E src dst fs).1 = Raise e → e = AssertionError.
Proof.
  destruct (fs !! src) as [[d1 t1|?]|] eqn:Hs; destruct (fs !! dst) as [[d2 t2|?]|] eqn:Hd;
    try (by rewrite (checksum_compare_files E src dst fs d1 t1 d2 t2 Hs Hd));
    (unfold checksum_compare, bind, os_path_isfile, fs_isfile, py_assert, raise;
     rewrite Hs, Hd; simpl; by intros [= <-]).
Qed.

(** X1 (what a verdict of [checksum_compare] means).  When it returns, both
    paths are regular files and the file system is unchanged; files of equal
    content always compare as equal, so the verdict [False] shows that the
    contents differ. *)
Theorem checksum_compare_verdict (E : env) (src dst : string) (fs fs' : FS) (same : bool) :
  checksum_compare E src dst fs = (Ret same, fs') →
  fs' = fs ∧
  ∃ d1 t1 d2 t2,
    fs !! src = Some (File d1 t1) ∧ fs !! dst = Some (File d2 t2) ∧
    (d1 = d2 → same = true) ∧ (same = false → d1 ≠ d2).
Proof.
  intros Hrun. pose proof Hrun as Hinv.
  apply checksum_compare_inv in Hinv as [-> Hfiles]. split; [done|].
  destruct (Hfiles same eq_refl) as [Hsrc Hdst]. unfold fs_isfile in Hsrc, Hdst.
  destruct (fs !! src) as [[d1 t1|?]|] eqn:Hs; try done.
  destruct (fs !! dst) as [[d2 t2|?]|] eqn:Hd; try done.
  rewrite (checksum_compare_files E src dst fs d1 t1 d2 t2 Hs Hd) in Hrun.
  injection Hrun as <-. exists d1, t1, d2, t2. split; [done|]. split; [done|]. split.
  - intros ->. apply N.eqb_refl.
  - intros Hne ->. by rewrite N.eqb_refl in Hne.
Qed.

(** X2 (the assertion of [checksum_compare]).  The call raises exactly when
    one of the two paths is not a regular file, the exception is
    [AssertionError], and nothing is read or changed. *)
Theorem checksum_compare_asserts (E : env) (src dst : string) (fs : FS) :
  (fs_isfile fs src && fs_isfile fs dst = false ↔
   checksum_compare E src dst fs = (Raise AssertionError, fs)) ∧
  (fs_isfile fs src && fs_isfile fs dst = true ↔
   ∃ same, checksum_compare E src dst fs = (Ret same, fs)).
Proof.
  unfold fs_isfile.
  destruct (fs !! src) as [[d1 t1|?]|] eqn:Hs; destruct (fs !! dst) as [[d2 t2|?]|] eqn:Hd;
    simpl;
    try (rewrite (checksum_compare_files E src dst fs d1 t1 d2 t2 Hs Hd);
         split; split; [done|discriminate|eauto|done]);
    (unfold checksum_compare, bind, os_path_isfile, fs_isfile, py_assert, raise;
     rewrite Hs, Hd; simpl; split; split; try done; intros [? [=]]).
Qed.

(** ** More on the verified copy *)

Lemma last_char_path_join (a b : string) :
  b ≠ EmptyString → last_char (path_join a b) = last_char b.
Proof.
  intros Hb. unfold path_join. destruct (strip_prefix "/" b); [done|].
  destruct (_ || _).
  - by apply last_char_app.
  - rewrite <- append_assoc. by apply last_char_app.
Qed.

Lemma endswith_path_join (a b suffix : string) :
  endswith b suffix = true → endswith (path_join a b) suffix = true.
Proof.
  intros [pre ->]%endswith_app. apply endswith_app.
  unfold path_join. destruct (strip_prefix "/" (pre +:+ suffix)); [by exists pre|].
  destruct (_ || _).
  - exists (a +:+ pre). by rewrite append_assoc.
  - exists (a +:+ "/" +:+ pre). by rewrite !append_assoc.
Qed.

Lemma backup_path_of_last_char E d tmpl ft t :
  ft ≠ EmptyString → last_char (backup_path_of E d tmpl ft t) = last_char ft.
Proof.
  intros Hft. unfold backup_path_of.
  rewrite last_char_path_join.
  - rewrite <- append_assoc. by apply last_char_app.
  - by apply append_nonempty_r, append_nonempty_r.
Qed.

Lemma backup_path_of_endswith E d tmpl ft t :
  endswith (backup_path_of E d tmpl ft t) ("." +:+ ft) = true.
Proof.
  unfold backup_path_of. apply endswith_path_join, endswith_app. eauto.
Qed.

(** X3 (a successful copy).  When the server leaves the data file alone, the
    data file is a regular file, the backup directory is a directory that
    can receive the destination, and the destination does not exist yet,
    [copy_data_file] returns the destination path and the only change to
    the file system is the new destination, with the content and the
    modification time of the data file. *)
Theorem copy_data_file_copies (E : env) (data_file backup_dir backup_filename : string)
    (port : Z) (file_type : string) (fs : FS) (data : string) (t : Z) :
  let backup_path := backup_path_of E backup_dir backup_filename file_type t in
  writer E data_file = None →
  fs !! data_file = Some (File data t) →
  fs_isdir fs backup_dir = true →
  fs !! backup_path = None →
  parent_check fs backup_path = None →
  copy_data_file E data_file backup_dir backup_filename port file_type fs =
    (Ret (VStr backup_path), <[backup_path := File data t]> fs).
Proof.
  intros backup_path Hquiet Hsrc Hdir Hfree Hparent.
  assert (data_file ≠ backup_path) as Hne by congruence.
  unfold copy_data_file. unfold bind at 1. unfold os_path_getmtime. rewrite Hsrc.
  change (node_mtime (File data t)) with t.
  fold (backup_path_of E backup_dir backup_filename file_type t). fold backup_path.
  unfold bind at 1. unfold os_path_exists at 1.
  rewrite (fs_isdir_exists _ _ Hdir). simpl.
  unfold bind at 1. unfold os_path_isdir. rewrite Hdir. simpl.
  unfold bind at 1. unfold os_path_exists, fs_exists.
  rewrite bool_decide_eq_false_2 by (rewrite Hfree; by intros [? ?]).
  unfold copy_and_verify. unfold bind at 1.
  assert (shutil_copy2 data_file backup_path fs = (Ret tt, <[backup_path := File data t]> fs))
    as ->.
  { unfold shutil_copy2, bind, os_path_isdir, fs_isdir. rewrite Hfree.
    apply String.eqb_neq in Hne. rewrite Hne. simpl. by rewrite Hsrc, Hfree, Hparent. }
  unfold bind at 1. unfold store_writes. rewrite Hquiet.
  unfold bind at 1.
  rewrite (checksum_compare_files E data_file backup_path _ data t data t).
  - rewrite N.eqb_refl. simpl. unfold bind, os_path_getsize, ret.
    by rewrite lookup_insert_eq.
  - by rewrite lookup_insert_ne.
  - by rewrite lookup_insert_eq.
Qed.

(** X5 (what a copy may touch).  When the backup directory exists,
    [copy_data_file] changes at most two paths, whatever its outcome: the
    destination it derives and the data file itself (which only the server
    writes). *)
Theorem copy_data_file_touches_only (E : env)
    (data_file backup_dir backup_filename : string) (port : Z) (file_type : string)
    (fs : FS) (src : node) (p : string) :
  fs_exists fs backup_dir = true →
  fs !! data_file = Some src →
  p ≠ backup_path_of E backup_dir backup_filename file_type (node_mtime src) →
  p ≠ data_file →
  (copy_data_file E data_file backup_dir backup_filename port file_type fs).2 !! p = fs !! p.
Proof.
  intros Hex Hsrc Hp Hpd.
  unfold copy_data_file. unfold bind at 1. unfold os_path_getmtime. rewrite Hsrc.
  fold (backup_path_of E backup_dir backup_filename file_type (node_mtime src)).
  set (backup_path := backup_path_of _ _ _ _ _) in *.
  unfold bind at 1. unfold os_path_exists at 1. rewrite Hex. simpl.
  unfold bind at 1. unfold os_path_isdir.
  destruct (fs_isdir fs backup_dir); simpl; [|done].
  unfold bind at 1. unfold os_path_exists.
  destruct (fs_exists fs backup_path) eqn:Hdst; [done|].
  assert (fs_isdir fs backup_path = false) as Hnodir.
  { destruct (fs_isdir fs backup_path) eqn:Hd; [|done].
    apply fs_isdir_exists in Hd. congruence. }
  unfold copy_and_verify. unfold bind at 1.
  destruct (shutil_copy2 data_file backup_path fs) as [r1 fs1] eqn:Hcopy.
  assert (fs1 !! p = fs !! p) as Hfs1.
  { apply shutil_copy2_run in Hcopy as [->|(data & t & target & _ & -> & _ & Htarget)];
      [done|].
    rewrite (Htarget Hnodir). by rewrite lookup_insert_ne. }
  destruct r1 as [[]|e]; [|done].
  unfold bind at 1.
  assert ((store_writes E data_file fs1).2 !! p = fs1 !! p) as Hfs2.
  { unfold store_writes. destruct (writer E data_file) as [[data t]|]; [|done].
    destruct (fs1 !! data_file) as [[? ?|?]|]; try done. simpl.
    by rewrite lookup_insert_ne. }
  pose proof (store_writes_ret E data_file fs1) as Hret.
  destruct (store_writes E data_file fs1) as [r2 fs2]. simpl in Hfs2, Hret. subst r2.
  unfold bind at 1.
  destruct (checksum_compare E data_file backup_path fs2) as [r3 fs3] eqn:Hcmp.
  apply checksum_compare_inv in Hcmp as [-> _].
  destruct r3 as [[]|e]; simpl; [|congruence..].
  unfold bind, os_path_getsize, ret.
  destruct (fs2 !! backup_path) as [[? ?|?]|]; simpl; congruence.
Qed.

(** X6 (refusals that touch nothing).  When the data file is missing,
    [copy_data_file] raises [OSError] before it looks at the backup
    directory; when the backup directory exists and is not a directory, it
    returns [None].  In both cases the file system is left as it was. *)
Theorem copy_data_file_refusals (E : env) (data_file backup_dir backup_filename : string)
    (port : Z) (file_type : string) (fs : FS) :
  (fs !! data_file = None →
   copy_data_file E data_file backup_dir backup_filename port file_type fs =
     (Raise (OSError ENOENT), fs)) ∧
  (is_Some (fs !! data_file) → fs_isfile fs backup_dir = true →
   copy_data_file E data_file backup_dir backup_filename port file_type fs = (Ret VNone, fs)).
Proof.
  split.
  - intros Hsrc. unfold copy_data_file, bind at 1. unfold os_path_getmtime. by rewrite Hsrc.
  - intros [src Hsrc] Hfile.
    unfold copy_data_file. unfold bind at 1. unfold os_path_getmtime. rewrite Hsrc.
    assert (fs_exists fs backup_dir = true ∧ fs_isdir fs backup_dir = false) as [Hex Hnd].
    { unfold fs_isfile, fs_exists, fs_isdir in *.
      by destruct (fs !! backup_dir) as [[? ?|?]|]. }
    unfold bind at 1. unfold os_path_exists at 1. rewrite Hex. simpl.
    unfold bind at 1. unfold os_path_isdir. by rewrite Hnd.
Qed.

(** X7 (the names of the backups).  The path [copy_rdb] returns ends with
    [.rdb], the path [copy_aof] returns ends with [.aof], and the two are
    never the same path, whatever the templates, directories and times. *)
Theorem copy_rdb_copy_aof_apart (E E' : env) (rdb aof d d' tmpl tmpl' : string)
    (port port' : Z) (fs fs1 fs' fs1' : FS) (p q : string) :
  copy_rdb E rdb d tmpl port fs = (Ret (VStr p), fs1) →
  copy_aof E' aof d' tmpl' port' fs' = (Ret (VStr q), fs1') →
  endswith p ".rdb" = true ∧ endswith q ".aof" = true ∧ p ≠ q.
Proof.
  unfold copy_rdb, copy_aof. intros Hrdb Haof.
  apply copy_data_file_run in Hrdb as [_ [[=]|(src & _ & [= ->] & _)]].
  apply copy_data_file_run in Haof as [_ [[=]|(src' & _ & [= ->] & _)]].
  split; [apply backup_path_of_endswith|]. split; [apply backup_path_of_endswith|].
  intros Heq. apply (f_equal last_char) in Heq.
  rewrite !backup_path_of_last_char in Heq by done. discriminate.
Qed.

(** ** More on the save trigger *)

Lemma wait_for_save_trace r clk t0 b timeout fuel :
  ∀ s ret s',
    wait_for_save r clk t0 b timeout fuel s = Some (ret, s') →
    ∃ k,
      (ret = "ok" ∧ calls s' = calls s ++ polling_rounds k ++ [CallLastsave]) ∨
      (ret = "timeout" ∧ calls s' = calls s ++ polling_rounds k ++ [CallLastsave; CallNow]).
Proof.
  induction fuel as [|fuel IH]; intros s ret s'; [done|].
  simpl. destruct (negb _).
  - intros [= <- <-]. exists 0%nat. left. by split.
  - destruct (_ >? timeout).
    + intros [= <- <-]. exists 0%nat. right. split; [done|]. simpl.
      by rewrite <- app_assoc.
    + intros Hrun. apply IH in Hrun as [k Hk]. exists (S k). simpl in Hk.
      rewrite <- !app_assoc in Hk. simpl in Hk. exact Hk.
Qed.

(** X8 (the calls of [bgsave_and_wait]).  Whenever it returns, the result is
    ['failed'], ['ok'] or ['timeout'], [BGSAVE] has been sent exactly once,
    as the third call, and what follows is a number of rounds "poll, read
    the clock, sleep one second" closed by a last poll (for ['ok']) or by a
    last poll and a last clock reading (for ['timeout']): it never sleeps
    after the poll that decides, and never polls after a rejected
    [BGSAVE]. *)
Theorem bgsave_and_wait_calls (r : redis) (clk : clock) (timeout : Z) (fuel : nat)
    (ret_ : string) (s : session) :
  bgsave_and_wait r clk timeout fuel = Some (ret_, s) →
  (bgsave_reply r = false ∧ ret_ = "failed" ∧
   calls s = [CallNow; CallLastsave; CallBgsave]) ∨
  (bgsave_reply r = true ∧
   ∃ k,
     (ret_ = "ok" ∧
      calls s = [CallNow; CallLastsave; CallBgsave] ++ polling_rounds k ++ [CallLastsave]) ∨
     (ret_ = "timeout" ∧
      calls s = [CallNow; CallLastsave; CallBgsave] ++ polling_rounds k ++
                [CallLastsave; CallNow])).
Proof.
  unfold bgsave_and_wait. simpl. destruct (bgsave_reply r).
  - intros Hrun. right. split; [done|].
    apply wait_for_save_trace in Hrun as [k Hk]. by exists k.
  - intros [= <- <-]. by left.
Qed.

Lemma wait_for_save_bounded r clk t0 b timeout m :
  ∀ fuel s,
    clk (ticks s + m)%nat - b > timeout →
    (m < fuel)%nat →
    ∃ ret s',
      wait_for_save r clk t0 b timeout fuel s = Some (ret, s') ∧
      (polls s' ≤ polls s + m + 1)%nat.
Proof.
  induction m as [|m IH]; intros fuel s Hlate Hfuel;
    (destruct fuel as [|fuel]; [lia|]); simpl.
  - destruct (negb _).
    + eexists _, _. split; [done|]. simpl. lia.
    + rewrite Nat.add_0_r in Hlate.
      destruct (Z.gtb_spec (clk (ticks s) - b) timeout); [|lia].
      eexists _, _. split; [done|]. simpl. lia.
  - destruct (negb _).
    + eexists _, _. split; [done|]. simpl. lia.
    + destruct (Z.gtb_spec (clk (ticks s) - b) timeout).
      * eexists _, _. split; [done|]. simpl. lia.
      * destruct (IH fuel (sleep 1 {| polls := S (polls s); ticks := S (ticks s);
                                       calls := (calls s ++ [CallLastsave]) ++ [CallNow] |}))
          as (ret & s' & Hrun & Hpolls).
        -- simpl. by rewrite Nat.add_succ_r in Hlate.
        -- lia.
        -- exists ret, s'. split; [done|]. simpl in Hpolls. lia.
Qed.

Lemma clock_advance (clk : clock) :
  clk 0%nat ≤ clk 1%nat →
  (∀ n, (1 ≤ n)%nat → clk n + 1000000 ≤ clk (S n)) →
  ∀ n, clk 0%nat + Z.of_nat n * 1000000 ≤ clk (S n).
Proof.
  intros Hfirst Hstep. induction n as [|n IH]; [lia|].
  specialize (Hstep (S n) ltac:(lia)). lia.
Qed.

(** X10 (the wait is bounded).  With a clock that does not go back between
    the first two readings and advances by at least one second between any
    two later readings (the loop sleeps one second between them),
    [bgsave_and_wait] returns after at most [timeout / 1 second + 3]
    [LASTSAVE] commands, the first one included, whatever the server
    answers. *)
Theorem bgsave_and_wait_returns_in_time (r : redis) (clk : clock) (timeout : Z)
    (fuel : nat) :
  clk 0%nat ≤ clk 1%nat →
  (∀ n, (1 ≤ n)%nat → clk n + 1000000 ≤ clk (S n)) →
  (Z.to_nat (timeout / 1000000) + 1 < fuel)%nat →
  ∃ ret_ s,
    bgsave_and_wait r clk timeout fuel = Some (ret_, s) ∧
    (polls s ≤ Z.to_nat (timeout / 1000000) + 3)%nat.
Proof.
  intros Hfirst Hclock Hfuel. unfold bgsave_and_wait. simpl. destruct (bgsave_reply r).
  - destruct (wait_for_save_bounded r clk (lastsave_at r 0) (clk 0%nat) timeout
                (Z.to_nat (timeout / 1000000) + 1) fuel
                {| polls := 1; ticks := 1; calls := [CallNow; CallLastsave; CallBgsave] |})
      as (ret & s' & Hrun & Hpolls).
    + simpl.
      pose proof (clock_advance clk Hfirst Hclock (Z.to_nat (timeout / 1000000) + 1)) as Hadv.
      rewrite Nat2Z.inj_add in Hadv.
      destruct (Z.le_gt_cases 0 timeout) as [Hpos|Hneg].
      * rewrite Z2Nat.id in Hadv by (apply Z.div_pos; lia).
        pose proof (Z.mod_pos_bound timeout 1000000 ltac:(lia)) as Hmod.
        pose proof (Z.div_mod timeout 1000000 ltac:(lia)) as Hdiv. lia.
      * lia.
    + exact Hfuel.
    + exists ret, s'. split; [done|]. simpl in Hpolls. lia.
  - eexists _, _. split; [done|]. simpl. lia.
Qed.

(** ** The paths of the data files *)

(** X11 (the path of the aof file).  [aof_path] joins as [os.path.join]
    does: an [aof_filename] that starts with a slash is taken as it is,
    without the directory of the server; a relative one, under a directory
    that does not end with a slash, gives [dir/aof_filename], the layout
    [rdb_path] always gives to [dbfilename].  Without a ['dir'] in the
    server's configuration both raise [KeyError]. *)
Theorem aof_path_joins (r : redis) (name : string) :
  (config r !! "dir" = None →
   rdb_path r = Raise KeyError ∧ aof_path r name = Raise KeyError) ∧
  (∀ d, config r !! "dir" = Some d →
     (∀ rest, name = String slash rest → aof_path r name = Ret name) ∧
     (strip_prefix "/" name = None → d ≠ EmptyString → endswith d "/" = false →
      aof_path r name = Ret (d +:+ "/" +:+ name)) ∧
     (∀ db, config r !! "dbfilename" = Some db → rdb_path r = Ret (d +:+ "/" +:+ db))).
Proof.
  unfold rdb_path, aof_path, config_get. split.
  - by intros ->.
  - intros d ->. split; [|split].
    + intros rest ->. done.
    + intros Hrel Hd Hslash. unfold path_join. rewrite Hrel, Hslash.
      apply String.eqb_neq in Hd. by rewrite Hd.
    + by intros db ->.
Qed.

(** ** More on the orchestrator *)

Lemma os_makedirs_rec_plain E fuel :
  ∀ name (fs : FS) e, (os_makedirs_rec E fuel name fs).1 = Raise e → plain_exception e.
Proof.
  induction fuel as [|fuel IH]; intros name fs e; simpl; [by intros [= <-]|].
  destruct (path_split name) as [head tail].
  destruct (if String.eqb tail EmptyString then path_split head else (head, tail))
    as [head' tail'].
  assert (∀ fs0 : FS, (os_mkdir E name fs0).1 = Raise e → plain_exception e) as Hmk.
  { intros fs0. unfold os_mkdir. destruct (fs_exists fs0 name); [by intros [= <-]|].
    destruct (parent_check fs0 name); [by intros [= <-]|done]. }
  unfold bind, os_path_exists.
  destruct (negb (String.eqb head' EmptyString) && negb (String.eqb tail' EmptyString)
            && negb (fs_exists fs head')); [|apply Hmk].
  specialize (IH head' fs).
  destruct (os_makedirs_rec E fuel head' fs) as [[[]|e1] fs1]; simpl in *.
  - destruct (String.eqb tail' "."); [done|apply Hmk].
  - destruct e1 as [[]| | | | | | |]; simpl;
      try (intros [= <-]; by apply IH).
    destruct (String.eqb tail' "."); [done|apply Hmk].
Qed.

Lemma copy_data_file_plain E data_file backup_dir backup_filename port file_type
    (fs : FS) e :
  (copy_data_file E data_file backup_dir backup_filename port file_type fs).1 = Raise e →
  plain_exception e.
Proof.
  assert (∀ p (fs0 : FS), (copy_and_verify E data_file p fs0).1 = Raise e → plain_exception e)
    as Htail.
  { intros p fs0. unfold copy_and_verify. unfold bind at 1.
    destruct (shutil_copy2 data_file p fs0) as [r1 fs1] eqn:Hcopy.
    destruct r1 as [[]|e1].
    - unfold bind at 1. pose proof (store_writes_ret E data_file fs1) as Hret.
      destruct (store_writes E data_file fs1) as [r2 fs2]. simpl in Hret. subst r2.
      unfold bind at 1.
      destruct (checksum_compare E data_file p fs2) as [r3 fs3] eqn:Hcmp.
      destruct r3 as [[]|e3]; simpl.
      + unfold bind, os_path_getsize, ret.
        destruct (fs3 !! p) as [[? ?|?]|]; simpl; [done..|by intros [= <-]].
      + done.
      + intros [= <-].
        pose proof (checksum_compare_raises E data_file p fs2 e3) as He.
        rewrite Hcmp in He. by rewrite (He eq_refl).
    - simpl. intros [= <-].
      unfold shutil_copy2, bind, os_path_isdir in Hcopy.
      set (target := if fs_isdir fs0 p then path_join p (basename data_file) else p) in *.
      destruct (String.eqb data_file target && fs_exists fs0 data_file);
        [by inversion Hcopy|].
      destruct (fs0 !! data_file) as [[? ?|?]|]; try by inversion Hcopy.
      destruct (fs0 !! target) as [[? ?|?]|]; try by inversion Hcopy.
      + destruct (parent_check fs0 target); by inversion Hcopy.
      + destruct (parent_check fs0 target); by inversion Hcopy. }
  unfold copy_data_file. unfold bind at 1. unfold os_path_getmtime.
  destruct (fs !! data_file) as [src|]; [|by intros [= <-]].
  unfold bind at 1. unfold os_path_exists at 1.
  destruct (fs_exists fs backup_dir); simpl.
  - unfold bind at 1. unfold os_path_isdir.
    destruct (fs_isdir fs backup_dir); simpl; [|done].
    unfold bind at 1. unfold os_path_exists.
    destruct (fs_exists fs _); [done|]. apply Htail.
  - unfold bind at 1.
    pose proof (os_makedirs_rec_plain E (S (String.length backup_dir)) backup_dir fs) as Hmk.
    unfold os_makedirs.
    destruct (os_makedirs_rec E _ backup_dir fs) as [[[]|e1] fs1]; simpl in *.
    + apply Htail.
    + intros [= <-]. by apply Hmk.
Qed.

Lemma plain_exception_status (e : exn) :
  plain_exception e → exit_status (Raise e : res unit) = 1.
Proof. by destruct e. Qed.

(** The steps of a run of [main] that ends normally. *)
Lemma main_done_inv E a r clk fuel (fs fs' : FS) u :
  main E a r clk fuel fs = Some (Ret u, fs') →
  ∃ rdb s v1 fs1 fs2 v3 fs3,
    rdb_path r = Ret rdb ∧
    bgsave_and_wait r clk (timedelta_seconds (bgsave_timeout a)) fuel = Some ("ok", s) ∧
    copy_rdb E rdb (backup_dir a) (backup_filename a) (redis_port a) fs = (Ret v1, fs1) ∧
    truthy v1 = true ∧
    (if with_aof a
     then ∃ aof v2,
            aof_path r (aof_filename a) = Ret aof ∧
            copy_aof E aof (backup_dir a) (backup_filename a) (redis_port a) fs1
              = (Ret v2, fs2) ∧ truthy v2 = true
     else fs2 = fs1) ∧
    clean_rdb_backup (backup_dir a) (max_backups a) (redis_port a) fs2 = (Ret v3, fs3) ∧
    (if with_aof a
     then ∃ v4, clean_aof_backup (backup_dir a) (max_backups a) (redis_port a) fs3
                  = (Ret v4, fs')
     else fs' = fs3).
Proof.
  unfold main. destruct (rdb_path r) as [rdb|]; [|done].
  destruct (if with_aof a then aof_path r (aof_filename a) else Ret EmptyString)
    as [aof|] eqn:Haof; [|done].
  destruct (bgsave_and_wait r clk _ fuel) as [[ret_ s]|]; [|done].
  destruct (String.eqb_spec ret_ "ok") as [->|]; [|done]. simpl negb. cbv iota.
  intros [= Hrun]. revert Hrun.
  unfold bind at 1.
  destruct (copy_rdb E rdb (backup_dir a) (backup_filename a) (redis_port a) fs)
    as [[v1|] fs1] eqn:Hcopy1; [|done].
  destruct (truthy v1) eqn:Hv1; [|done]. change (negb true) with false. cbv beta iota.
  unfold bind at 1.
  destruct (with_aof a) eqn:Hon.
  - unfold bind at 1.
    destruct (copy_aof E aof (backup_dir a) (backup_filename a) (redis_port a) fs1)
      as [[v2|] fs2] eqn:Hcopy2; [|done].
    destruct (truthy v2) eqn:Hv2.
    + change (negb true) with false. cbv beta iota. unfold ret at 1.
      unfold bind at 1.
      destruct (clean_rdb_backup (backup_dir a) (max_backups a) (redis_port a) fs2)
        as [[v3|] fs3] eqn:Hclean1; [|done].
      unfold bind at 1. unfold bind at 1.
      destruct (clean_aof_backup (backup_dir a) (max_backups a) (redis_port a) fs3)
        as [[v4|] fs4] eqn:Hclean2; [|done].
      intros [= _ <-].
      exists rdb, s, v1, fs1, fs2, v3, fs3. repeat split; try done; eauto.
    + change (negb false) with true. cbv beta iota.
      unfold bind at 1. destruct (os_remove_value v1 fs2) as [[[]|] ?]; done.
  - unfold ret at 1. unfold bind at 1.
    destruct (clean_rdb_backup (backup_dir a) (max_backups a) (redis_port a) fs1)
      as [[v3|] fs3] eqn:Hclean1; [|done].
    intros [= _ <-].
    exists rdb, s, v1, fs1, fs1, v3, fs3. repeat split; done.
Qed.

(** X16 (status 0 means a backup was made).  Whenever [main] ends normally,
    the save had completed (['ok']) and [copy_rdb] had returned the path of
    a backup that was a regular file once the copy was verified; with the
    aof backup enabled the same holds for [copy_aof], the rdb backup being
    still in place after the aof copy. *)
Theorem main_done_means_backed_up (E : env) (a : args) (r : redis) (clk : clock)
    (fuel : nat) (fs fs' : FS) (u : unit) :
  main E a r clk fuel fs = Some (Ret u, fs') →
  ∃ rdb s p fs1,
    rdb_path r = Ret rdb ∧
    bgsave_and_wait r clk (timedelta_seconds (bgsave_timeout a)) fuel = Some ("ok", s) ∧
    copy_rdb E rdb (backup_dir a) (backup_filename a) (redis_port a) fs
      = (Ret (VStr p), fs1) ∧
    fs_isfile fs1 p = true ∧
    (with_aof a = true →
     ∃ aof q fs2,
       aof_path r (aof_filename a) = Ret aof ∧
       copy_aof E aof (backup_dir a) (backup_filename a) (redis_port a) fs1
         = (Ret (VStr q), fs2) ∧
       fs_isfile fs2 q = true ∧ fs_isfile fs2 p = true).
Proof.
  intros Hrun.
  apply main_done_inv in Hrun
    as (rdb & s & v1 & fs1 & fs2 & v3 & fs3 & Hrdb & Hsave & Hcopy1 & Hv1 & Haof & _).
  pose proof Hcopy1 as Hrun1. unfold copy_rdb in Hrun1.
  destruct (copy_data_file_truthy _ _ _ _ _ _ _ _ _ Hrun1 Hv1) as (p & -> & Hp).
  exists rdb, s, p, fs1. repeat (split; [done|]).
  intros Hon. rewrite Hon in Haof. destruct Haof as (aof & v2 & Haof & Hcopy2 & Hv2).
  pose proof Hcopy2 as Hrun2. unfold copy_aof in Hrun2.
  destruct (copy_data_file_truthy _ _ _ _ _ _ _ _ _ Hrun2 Hv2) as (q & -> & Hq).
  exists aof, q, fs2. repeat (split; [done|]).
  by apply (copy_data_file_run _ _ _ _ _ _ _ _ _ Hrun2).
Qed.

(** X17 (no pruning after a failed rdb copy).  When the save completes and
    [copy_rdb] returns [None], [main] ends with [sys.exit(1)] in the file
    system the copy left: the aof file is not copied and no backup is
    pruned. *)
Theorem main_stops_when_rdb_copy_fails (E : env) (a : args) (r : redis) (clk : clock)
    (fuel : nat) (fs fs1 : FS) (rdb : string) (s : session) :
  rdb_path r = Ret rdb →
  bgsave_and_wait r clk (timedelta_seconds (bgsave_timeout a)) fuel = Some ("ok", s) →
  copy_rdb E rdb (backup_dir a) (backup_filename a) (redis_port a) fs = (Ret VNone, fs1) →
  main E a r clk fuel fs = Some (Raise (SystemExit 1), fs1).
Proof.
  intros Hrdb Hsave Hcopy. unfold main. rewrite Hrdb.
  destruct (rdb_path_aof_path r rdb (aof_filename a) Hrdb) as [aof Haof].
  assert ((if with_aof a then aof_path r (aof_filename a) else Ret EmptyString) =
          Ret (if with_aof a then aof else EmptyString)) as ->.
  { rewrite Haof. by destruct (with_aof a). }
  rewrite Hsave. simpl negb. cbv iota. f_equal.
  unfold bind at 1. by rewrite Hcopy.
Qed.

(** X18 (the exit status).  Whenever [main] ends, the exit status is 0 or 1,
    and it is 0 only when [main] ran to its end. *)
Theorem main_exit_status (E : env) (a : args) (r : redis) (clk : clock)
    (fuel : nat) (fs fs' : FS) (result : res unit) :
  main E a r clk fuel fs = Some (result, fs') →
  (result = Ret tt ∧ exit_status result = 0) ∨
  ((∃ e, result = Raise e) ∧ exit_status result = 1).
Proof.
  destruct result as [[]|e]; [by left|]. intros Hrun. right. split; [eauto|].
  revert Hrun. unfold main, rdb_path, aof_path, config_get.
  destruct (config r !! "dir") as [d|]; [|by intros [= <- _]].
  destruct (config r !! "dbfilename") as [db|]; [|by intros [= <- _]].
  assert ((if with_aof a then Ret (path_join d (aof_filename a)) else Ret EmptyString) =
          Ret (if with_aof a then path_join d (aof_filename a) else EmptyString)) as ->
    by (by destruct (with_aof a)).
  destruct (bgsave_and_wait r clk _ fuel) as [[ret_ s]|]; [|done].
  destruct (negb (String.eqb ret_ "ok")); [by intros [= <- _]|].
  intros [= Hrun]. revert Hrun.
  unfold bind at 1.
  pose proof (copy_data_file_plain E (d +:+ "/" +:+ db) (backup_dir a) (backup_filename a)
                (redis_port a) "rdb" fs) as Hplain1.
  unfold copy_rdb.
  destruct (copy_data_file E (d +:+ "/" +:+ db) (backup_dir a) (backup_filename a)
              (redis_port a) "rdb" fs) as [[v1|e1] fs1];
    [|intros [= <- _]; by apply plain_exception_status, Hplain1].
  destruct (truthy v1) eqn:Hv1; [|by intros [= <- _]].
  change (negb true) with false. cbv beta iota.
  assert (∀ fs0 : FS,
            (clean_rdb_backup (backup_dir a) (max_backups a) (redis_port a) fs0).1 = Raise e →
            exit_status (Raise e : res unit) = 1) as Hclean1.
  { intros fs0 He.
    pose proof (clean_backup_dir_result (backup_dir a) (max_backups a) (redis_port a)
                  "rdb" fs0) as Hres.
    unfold clean_rdb_backup in He. rewrite He in Hres. by destruct Hres as [->|[? ->]]. }
  assert (∀ fs0 : FS,
            (clean_aof_backup (backup_dir a) (max_backups a) (redis_port a) fs0).1 = Raise e →
            exit_status (Raise e : res unit) = 1) as Hclean2.
  { intros fs0 He.
    pose proof (clean_backup_dir_result (backup_dir a) (max_backups a) (redis_port a)
                  "aof" fs0) as Hres.
    unfold clean_aof_backup in He. rewrite He in Hres. by destruct Hres as [->|[? ->]]. }
  unfold bind at 1.
  destruct (with_aof a).
  - unfold bind at 1. unfold copy_aof.
    pose proof (copy_data_file_plain E (path_join d (aof_filename a)) (backup_dir a)
                  (backup_filename a) (redis_port a) "aof" fs1) as Hplain2.
    destruct (copy_data_file E (path_join d (aof_filename a)) (backup_dir a)
                (backup_filename a) (redis_port a) "aof" fs1) as [[v2|e2] fs2];
      [|intros [= <- _]; by apply plain_exception_status, Hplain2].
    destruct (truthy v2).
    + change (negb true) with false. cbv beta iota. unfold ret at 1.
      unfold bind at 1.
      specialize (Hclean1 fs2).
      destruct (clean_rdb_backup (backup_dir a) (max_backups a) (redis_port a) fs2)
        as [[v3|e3] fs3]; [|intros [= <- _]; by apply Hclean1].
      unfold bind at 1. unfold bind at 1.
      specialize (Hclean2 fs3).
      destruct (clean_aof_backup (backup_dir a) (max_backups a) (redis_port a) fs3)
        as [[v4|e4] fs4]; [done|intros [= <- _]; by apply Hclean2].
    + change (negb false) with true. cbv beta iota. unfold bind at 1.
      destruct v1 as [|n|p]; simpl; try by intros [= <- _].
      unfold os_remove. destruct (fs2 !! p) as [[? ?|?]|]; by intros [= <- _].
  - unfold ret at 1. unfold bind at 1.
    specialize (Hclean1 fs1).
    destruct (clean_rdb_backup (backup_dir a) (max_backups a) (redis_port a) fs1)
      as [[v3|e3] fs3]; [done|intros [= <- _]; by apply Hclean1].
Qed.

(** X19 (the limit holds for the names retention knows).  After every run of
    [main] that ends normally, the backup directory holds at most
    [max_backups] entries whose names end with [(port_<port>).rdb] and,
    with the aof backup enabled, at most [max_backups] whose names end with
    [(port_<port>).aof]. *)
Theorem main_respects_limit (E : env) (a : args) (r : redis) (clk : clock)
    (fuel : nat) (fs fs' : FS) (u : unit) :
  main E a r clk fuel fs = Some (Ret u, fs') →
  Z.of_nat (length (matching fs' (backup_dir a) (file_suffix (redis_port a) "rdb")))
    ≤ max_backups a ∧
  (with_aof a = true →
   Z.of_nat (length (matching fs' (backup_dir a) (file_suffix (redis_port a) "aof")))
     ≤ max_backups a).
Proof.
  intros Hrun.
  apply main_done_inv in Hrun
    as (rdb & s & v1 & fs1 & fs2 & v3 & fs3 & _ & _ & _ & _ & _ & Hclean1 & Hclean2).
  unfold clean_rdb_backup in Hclean1.
  apply clean_backup_dir_returns_bound in Hclean1 as [_ Hrdb].
  destruct (with_aof a).
  - destruct Hclean2 as [v4 Hclean2]. unfold clean_aof_backup in Hclean2.
    pose proof (clean_backup_dir_removed (backup_dir a) (max_backups a) (redis_port a)
                  "aof" fs3) as (D & HD & _ & Hlook).
    rewrite Hclean2 in Hlook. simpl in Hlook.
    apply clean_backup_dir_returns_bound in Hclean2 as [_ Haof].
    split; [|done].
    assert (matching fs' (backup_dir a) (file_suffix (redis_port a) "rdb") ≡ₚ
            matching fs3 (backup_dir a) (file_suffix (redis_port a) "rdb")) as ->; [|done].
    apply NoDup_Permutation; [apply NoDup_matching..|].
    intros f. rewrite (matching_after_removal fs3 fs' _ _ D Hlook). split; [tauto|].
    intros Hf. split; [done|].
    intros (g & Hg & Heq)%HD. apply entry_path_inj in Heq. subst g.
    apply elem_of_matching in Hf as [_ Hf]. apply elem_of_matching in Hg as [_ Hg].
    by rewrite (rdb_suffix_not_aof _ (redis_port a) f Hf) in Hg.
  - subst fs'. split; [done|]. discriminate.
Qed.

(** ** A missing backup directory *)



(** ** What the results of [bgsave_and_wait] show *)

Lemma wait_for_save_sound r clk t0 b timeout fuel :
  ∀ s ret s',
    wait_for_save r clk t0 b timeout fuel s = Some (ret, s') →
    (polls s < polls s')%nat ∧
    (∀ j, (polls s ≤ j)%nat → (j < polls s' - 1)%nat → lastsave_at r j = t0) ∧
    ((ret = "ok" ∧ lastsave_at r (polls s' - 1) ≠ t0) ∨
     (ret = "timeout" ∧ lastsave_at r (polls s' - 1) = t0 ∧
      (ticks s < ticks s')%nat ∧ clk (ticks s' - 1)%nat - b > timeout)).
Proof.
  induction fuel as [|fuel IH]; intros s ret s'; [done|]. simpl.
  destruct (Z.eqb_spec (lastsave_at r (polls s)) t0) as [Hsame|Hdiff]; simpl.
  - destruct (Z.gtb_spec (clk (ticks s) - b) timeout) as [Hlate|Hearly].
    + intros [= <- <-]. simpl. rewrite !Nat.sub_0_r.
      split; [lia|]. split; [intros j ? ?; lia|]. right. repeat split; try done; lia.
    + intros Hrun. apply IH in Hrun as (Hlt & Hbefore & Hlast). simpl in *.
      split; [lia|]. split.
      * intros j Hj1 Hj2. destruct (decide (j = polls s)) as [->|Hne]; [done|].
        apply Hbefore; lia.
      * destruct Hlast as [?|(? & ? & ? & ?)]; [by left|].
        right. repeat split; try done; lia.
  - intros [= <- <-]. simpl. rewrite !Nat.sub_0_r.
    split; [lia|]. split; [intros j ? ?; lia|]. left. by split.
Qed.

(** X9 (what a result shows).  ['ok'] is returned only when the last reply
    to [LASTSAVE] differs from the marker read before the trigger, and
    ['timeout'] only when the last clock reading is past the deadline; in
    both cases every earlier reply to [LASTSAVE] equalled the marker.
    ['failed'] is returned only when [BGSAVE] was rejected. *)
Theorem bgsave_and_wait_sound (r : redis) (clk : clock) (timeout : Z) (fuel : nat)
    (ret_ : string) (s : session) :
  bgsave_and_wait r clk timeout fuel = Some (ret_, s) →
  (ret_ = "failed" ∧ bgsave_reply r = false) ∨
  (bgsave_reply r = true ∧
   (∀ j, (j < polls s - 1)%nat → lastsave_at r j = lastsave_at r 0) ∧
   ((ret_ = "ok" ∧ lastsave_at r (polls s - 1) ≠ lastsave_at r 0) ∨
    (ret_ = "timeout" ∧ lastsave_at r (polls s - 1) = lastsave_at r 0 ∧
     clk (ticks s - 1)%nat - clk 0%nat > timeout))).
Proof.
  unfold bgsave_and_wait. simpl. destruct (bgsave_reply r).
  - intros Hrun. right. split; [done|].
    apply wait_for_save_sound in Hrun as (Hlt & Hbefore & Hlast). simpl in *.
    split.
    + intros j Hj. destruct j as [|j]; [done|]. apply Hbefore; lia.
    + destruct Hlast as [?|(? & ? & ? & ?)]; [by left|]. right. by repeat split.
  - intros [= <- <-]. by left.
Qed.

(** ** A deletion that fails *)

Lemma remove_files_stops l (fs : FS) :
  NoDup l.*1 →
  ∃ done_ rest,
    l = done_ ++ rest ∧
    (∀ p, (remove_files l fs).2 !! p =
          if bool_decide (p ∈ done_.*1) then None else fs !! p) ∧
    match (remove_files l fs).1 with
    | Ret _ => rest = []
    | Raise e =>
        ∃ x rest', rest = x :: rest' ∧ fs_isfile fs x.1 = false ∧ ∃ code, e = OSError code
    end.
Proof.
  revert fs. induction l as [|x l IH]; intros fs Hnd.
  - exists [], []. simpl. repeat split; done.
  - rewrite fmap_cons in Hnd. apply NoDup_cons in Hnd as [Hx Hnd].
    simpl. unfold bind, os_remove.
    destruct (fs !! x.1) as [[data t|t]|] eqn:Hnode.
    + destruct (IH (delete x.1 fs) Hnd) as (done_ & rest & -> & Hlook & Hres).
      exists (x :: done_), rest. split; [done|]. split.
      * intros p. by apply lookup_removed.
      * destruct (remove_files (done_ ++ rest) (delete x.1 fs)).1 as [[]|e]; [done|].
        destruct Hres as (y & rest' & -> & Hy & Hcode). exists y, rest'.
        split; [done|]. split; [|done].
        unfold fs_isfile in *. rewrite lookup_delete_ne in Hy; [done|].
        intros Heq. apply Hx. rewrite Heq, fmap_app. apply elem_of_app. right.
        rewrite fmap_cons. left.
    + exists [], (x :: l). simpl. split; [done|]. split; [done|].
      exists x, l. split; [done|]. unfold fs_isfile. rewrite Hnode. eauto.
    + exists [], (x :: l). simpl. split; [done|]. split; [done|].
      exists x, l. split; [done|]. unfold fs_isfile. rewrite Hnode. eauto.
Qed.

(** X14 (no rollback of deletions).  On a directory with more matching
    entries than [max_backups], [clean_backup_dir] removes the entries of
    its plan (the oldest first) one by one; when a removal fails, because
    the entry is not a regular file, the call raises [OSError] at that
    entry: the entries before it in the plan stay removed, the entry itself
    and the ones after it stay in place. *)
Theorem clean_backup_dir_stops_at_failure (d : string) (max_backups port : Z)
    (file_type : string) (fs : FS) (e : exn) :
  let sfx := file_suffix port file_type in
  let run := clean_backup_dir d max_backups port file_type fs in
  fs_isdir fs d = true →
  max_backups < Z.of_nat (length (matching fs d sfx)) →
  run.1 = Raise e →
  e ≠ AssertionError →
  ∃ done_ x rest,
    removal_plan fs d sfx max_backups = done_ ++ x :: rest ∧
    fs_isfile fs x.1 = false ∧
    (∃ code, e = OSError code) ∧
    (∀ p, run.2 !! p = if bool_decide (p ∈ done_.*1) then None else fs !! p).
Proof.
  intros sfx run Hd Hover. unfold run.
  rewrite (clean_backup_dir_unfold d max_backups port file_type fs Hd). cbv zeta. fold sfx.
  destruct (Z.leb_spec (Z.of_nat (length (matching fs d sfx))) max_backups); [lia|].
  destruct (remove_files_stops (removal_plan fs d sfx max_backups) fs
              (NoDup_removal_plan fs d sfx max_backups))
    as (done_ & rest & Hsplit & Hlook & Hres).
  destruct (remove_files (removal_plan fs d sfx max_backups) fs) as [[[]|e'] fs'];
    simpl in *.
  - destruct (_ =? max_backups); [done|]. by intros [= <-].
  - intros [= <-] _. destruct Hres as (x & rest' & -> & Hx & Hcode).
    exists done_, x, rest'. repeat split; done.
Qed.

(** ** The further properties on concrete runs *)

Lemma some_pair_eta {A B} (x : option (A * B)) (a : A) (b : B) :
  fst <$> x = Some a → x = Some (a, from_option snd b x).
Proof. destruct x as [[? ?]|]; simpl; [by intros [= ->]|done]. Qed.

(** X12 on a concrete run. *)
Lemma clean_backup_dir_idempotent_witness :
  let fs' := (clean_backup_dir "/backups" 1 6379 "rdb" retention_fs).2 in
  clean_backup_dir "/backups" 1 6379 "rdb" fs' = (Ret VNone, fs').
Proof.
  intros fs'.
  apply (clean_backup_dir_idempotent "/backups" 1 6379 "rdb" retention_fs fs' VNone).
  apply pair_eta_fst. vm_compute. reflexivity.
Defined.

(** X13 on a concrete run. *)
Lemma clean_backup_dir_negative_limit_wipes_witness :
  ∃ fs' : FS,
    clean_backup_dir "/backups" (-1) 6379 "rdb" retention_fs = (Raise AssertionError, fs') ∧
    matching fs' "/backups" (file_suffix 6379 "rdb") = [] ∧
    (∀ p, fs' !! p =
          if bool_decide (p ∈ entry_path "/backups" <$>
                                matching retention_fs "/backups" (file_suffix 6379 "rdb"))
          then None else retention_fs !! p).
Proof.
  apply (clean_backup_dir_negative_limit_wipes "/backups" (-1) 6379 "rdb" retention_fs).
  - vm_compute. reflexivity.
  - lia.
  - vm_compute. repeat constructor.
Defined.

(** X15 on a concrete run. *)
Lemma clean_rdb_and_aof_apart_witness :
  (clean_rdb_backup "/backups" 1 6379 mixed_fs).2 !! entry_path "/backups" "a(port_6379).aof"
    = mixed_fs !! entry_path "/backups" "a(port_6379).aof" ∧
  (clean_aof_backup "/backups" 1 6379 mixed_fs).2 !! entry_path "/backups" "b(port_6379).rdb"
    = mixed_fs !! entry_path "/backups" "b(port_6379).rdb".
Proof.
  split.
  - apply (clean_rdb_and_aof_apart "/backups" 1 6379 6379 mixed_fs "a(port_6379).aof").
    vm_compute. reflexivity.
  - apply (clean_rdb_and_aof_apart "/backups" 1 6379 6379 mixed_fs "b(port_6379).rdb").
    vm_compute. reflexivity.
Defined.

(** X1 on a concrete run. *)
Lemma checksum_compare_verdict_witness :
  let src := "/var/lib/redis/dump.rdb" in
  let dst := "/var/lib/redis/appendonly.aof" in
  let fs' := (checksum_compare quiet_env src dst sample_fs).2 in
  fs' = sample_fs ∧
  ∃ d1 t1 d2 t2,
    sample_fs !! src = Some (File d1 t1) ∧ sample_fs !! dst = Some (File d2 t2) ∧
    (d1 = d2 → false = true) ∧ (false = false → d1 ≠ d2).
Proof.
  intros src dst fs'.
  apply (checksum_compare_verdict quiet_env src dst sample_fs fs' false).
  apply pair_eta_fst. vm_compute. reflexivity.
Defined.

(** X2 on a concrete run. *)
Lemma checksum_compare_asserts_witness :
  checksum_compare quiet_env "/var/lib/redis/dump.rdb" "/backups" sample_fs
    = (Raise AssertionError, sample_fs) ∧
  ∃ same, checksum_compare quiet_env "/var/lib/redis/dump.rdb"
            "/var/lib/redis/appendonly.aof" sample_fs = (Ret same, sample_fs).
Proof.
  split.
  - apply (checksum_compare_asserts quiet_env "/var/lib/redis/dump.rdb" "/backups" sample_fs).
    vm_compute. reflexivity.
  - apply (checksum_compare_asserts quiet_env "/var/lib/redis/dump.rdb"
             "/var/lib/redis/appendonly.aof" sample_fs).
    vm_compute. reflexivity.
Defined.

(** X3 on a concrete run. *)
Lemma copy_data_file_copies_witness :
  copy_data_file quiet_env "/var/lib/redis/dump.rdb" "/backups"
    "redis_dump_%Y-%m-%d_%H%M%S" 6379 "rdb" sample_fs =
  (Ret (VStr (backup_path_of quiet_env "/backups" "redis_dump_%Y-%m-%d_%H%M%S" "rdb"
                1700000000)),
   <[backup_path_of quiet_env "/backups" "redis_dump_%Y-%m-%d_%H%M%S" "rdb" 1700000000
     := File "REDIS0009" 1700000000]> sample_fs).
Proof.
  apply (copy_data_file_copies quiet_env "/var/lib/redis/dump.rdb" "/backups"
           "redis_dump_%Y-%m-%d_%H%M%S" 6379 "rdb" sample_fs "REDIS0009" 1700000000).
  - reflexivity.
  - vm_compute. reflexivity.
  - vm_compute. reflexivity.
  - vm_compute. reflexivity.
  - vm_compute. reflexivity.
Defined.

(** X5 on a concrete run. *)
Lemma copy_data_file_touches_only_witness :
  (copy_data_file busy_env "/var/lib/redis/dump.rdb" "/backups"
     "redis_dump_%Y-%m-%d_%H%M%S" 6379 "rdb" sample_fs).2 !! "/var/lib/redis/appendonly.aof"
  = sample_fs !! "/var/lib/redis/appendonly.aof".
Proof.
  apply (copy_data_file_touches_only busy_env "/var/lib/redis/dump.rdb" "/backups"
           "redis_dump_%Y-%m-%d_%H%M%S" 6379 "rdb" sample_fs (File "REDIS0009" 1700000000)).
  - vm_compute. reflexivity.
  - vm_compute. reflexivity.
  - vm_compute. discriminate.
  - discriminate.
Defined.

(** X6 on a concrete run. *)
Lemma copy_data_file_refusals_witness :
  copy_data_file quiet_env "/var/lib/redis/missing.rdb" "/backups"
    "redis_dump_%Y-%m-%d_%H%M%S" 6379 "rdb" sample_fs = (Raise (OSError ENOENT), sample_fs) ∧
  copy_data_file quiet_env "/var/lib/redis/dump.rdb" "/var/lib/redis/appendonly.aof"
    "redis_dump_%Y-%m-%d_%H%M%S" 6379 "rdb" sample_fs = (Ret VNone, sample_fs).
Proof.
  split.
  - apply (copy_data_file_refusals quiet_env "/var/lib/redis/missing.rdb" "/backups"
             "redis_dump_%Y-%m-%d_%H%M%S" 6379 "rdb" sample_fs).
    vm_compute. reflexivity.
  - apply (copy_data_file_refusals quiet_env "/var/lib/redis/dump.rdb"
             "/var/lib/redis/appendonly.aof" "redis_dump_%Y-%m-%d_%H%M%S" 6379 "rdb"
             sample_fs).
    + vm_compute. eauto.
    + vm_compute. reflexivity.
Defined.

(** X7 on a concrete run. *)
Lemma copy_rdb_copy_aof_apart_witness :
  endswith "/backups/redis_dump_2023-11-14_221320.rdb" ".rdb" = true ∧
  endswith "/backups/redis_dump_2023-11-14_221321.aof" ".aof" = true ∧
  "/backups/redis_dump_2023-11-14_221320.rdb" ≠ "/backups/redis_dump_2023-11-14_221321.aof".
Proof.
  apply (copy_rdb_copy_aof_apart quiet_env quiet_env "/var/lib/redis/dump.rdb"
           "/var/lib/redis/appendonly.aof" "/backups" "/backups"
           "redis_dump_%Y-%m-%d_%H%M%S" "redis_dump_%Y-%m-%d_%H%M%S" 6379 6379
           sample_fs
           (copy_rdb quiet_env "/var/lib/redis/dump.rdb" "/backups"
              "redis_dump_%Y-%m-%d_%H%M%S" 6379 sample_fs).2
           sample_fs
           (copy_aof quiet_env "/var/lib/redis/appendonly.aof" "/backups"
              "redis_dump_%Y-%m-%d_%H%M%S" 6379 sample_fs).2).
  - apply pair_eta_fst. vm_compute. reflexivity.
  - apply pair_eta_fst. vm_compute. reflexivity.
Defined.

(** X8 on a concrete run. *)
Lemma bgsave_and_wait_calls_witness :
  (bgsave_reply sample_redis = false ∧ "ok" = "failed" ∧
   [CallNow; CallLastsave; CallBgsave; CallLastsave; CallNow; CallSleep 1;
    CallLastsave; CallNow; CallSleep 1; CallLastsave]
   = [CallNow; CallLastsave; CallBgsave]) ∨
  (bgsave_reply sample_redis = true ∧
   ∃ k,
     ("ok" = "ok" ∧
      [CallNow; CallLastsave; CallBgsave; CallLastsave; CallNow; CallSleep 1;
       CallLastsave; CallNow; CallSleep 1; CallLastsave]
      = [CallNow; CallLastsave; CallBgsave] ++ polling_rounds k ++ [CallLastsave]) ∨
     ("ok" = "timeout" ∧
      [CallNow; CallLastsave; CallBgsave; CallLastsave; CallNow; CallSleep 1;
       CallLastsave; CallNow; CallSleep 1; CallLastsave]
      = [CallNow; CallLastsave; CallBgsave] ++ polling_rounds k ++
        [CallLastsave; CallNow])).
Proof.
  apply (bgsave_and_wait_calls sample_redis sample_clock (timedelta_seconds 60) 3 "ok"
           {| polls := 4; ticks := 3;
              calls := [CallNow; CallLastsave; CallBgsave; CallLastsave; CallNow;
                        CallSleep 1; CallLastsave; CallNow; CallSleep 1; CallLastsave] |}).
  vm_compute. reflexivity.
Defined.

(** X10 on a concrete run. *)
Lemma bgsave_and_wait_returns_in_time_witness :
  ∃ ret_ s,
    bgsave_and_wait stuck_redis sample_clock (timedelta_seconds 2) 4 = Some (ret_, s) ∧
    (polls s ≤ Z.to_nat (timedelta_seconds 2 / 1000000) + 3)%nat.
Proof.
  apply (bgsave_and_wait_returns_in_time stuck_redis sample_clock (timedelta_seconds 2) 4).
  - vm_compute. discriminate.
  - intros n _. unfold sample_clock. lia.
  - vm_compute. lia.
Defined.

(** X11 on a concrete run. *)
Lemma aof_path_joins_witness :
  (∀ rest, "/data/appendonly.aof" = String slash rest →
           aof_path sample_redis "/data/appendonly.aof" = Ret "/data/appendonly.aof") ∧
  (strip_prefix "/" "/data/appendonly.aof" = None → "/var/lib/redis" ≠ EmptyString →
   endswith "/var/lib/redis" "/" = false →
   aof_path sample_redis "/data/appendonly.aof"
     = Ret ("/var/lib/redis" +:+ "/" +:+ "/data/appendonly.aof")) ∧
  (∀ db, config sample_redis !! "dbfilename" = Some db →
         rdb_path sample_redis = Ret ("/var/lib/redis" +:+ "/" +:+ db)).
Proof.
  apply (aof_path_joins sample_redis "/data/appendonly.aof").
  vm_compute. reflexivity.
Defined.

(** X16 on a concrete run. *)
Lemma main_done_means_backed_up_witness :
  ∃ rdb s p fs1,
    rdb_path sample_redis = Ret rdb ∧
    bgsave_and_wait sample_redis sample_clock
      (timedelta_seconds (bgsave_timeout default_args)) 3 = Some ("ok", s) ∧
    copy_rdb quiet_env rdb (backup_dir default_args) (backup_filename default_args)
      (redis_port default_args) sample_fs = (Ret (VStr p), fs1) ∧
    fs_isfile fs1 p = true ∧
    (with_aof default_args = true →
     ∃ aof q fs2,
       aof_path sample_redis (aof_filename default_args) = Ret aof ∧
       copy_aof quiet_env aof (backup_dir default_args) (backup_filename default_args)
         (redis_port default_args) fs1 = (Ret (VStr q), fs2) ∧
       fs_isfile fs2 q = true ∧ fs_isfile fs2 p = true).
Proof.
  apply (main_done_means_backed_up quiet_env default_args sample_redis sample_clock 3
           sample_fs
           (from_option snd ∅
              (main quiet_env default_args sample_redis sample_clock 3 sample_fs)) tt).
  apply some_pair_eta. vm_compute. reflexivity.
Defined.

(** X17 on a concrete run. *)
Lemma main_stops_when_rdb_copy_fails_witness :
  main busy_env default_args sample_redis sample_clock 3 sample_fs =
  Some (Raise (SystemExit 1),
        (copy_rdb busy_env "/var/lib/redis/dump.rdb" "/backups"
           "redis_dump_%Y-%m-%d_%H%M%S" 6379 sample_fs).2).
Proof.
  apply (main_stops_when_rdb_copy_fails busy_env default_args sample_redis sample_clock 3
           sample_fs _ "/var/lib/redis/dump.rdb"
           {| polls := 4; ticks := 3;
              calls := [CallNow; CallLastsave; CallBgsave; CallLastsave; CallNow;
                        CallSleep 1; CallLastsave; CallNow; CallSleep 1; CallLastsave] |}).
  - vm_compute. reflexivity.
  - vm_compute. reflexivity.
  - apply pair_eta_fst. vm_compute. reflexivity.
Defined.

(** X18 on a concrete run. *)
Lemma main_exit_status_witness :
  (Raise (OSError EISDIR) = Ret tt ∧ exit_status (Raise (OSError EISDIR) : res unit) = 0) ∨
  ((∃ e, Raise (OSError EISDIR) = (Raise e : res unit)) ∧
   exit_status (Raise (OSError EISDIR) : res unit) = 1).
Proof.
  apply (main_exit_status quiet_env port_args sample_redis sample_clock 3 blocked_fs
           (from_option snd ∅
              (main quiet_env port_args sample_redis sample_clock 3 blocked_fs))
           (Raise (OSError EISDIR))).
  apply some_pair_eta. vm_compute. reflexivity.
Defined.

(** X19 on a concrete run. *)
Lemma main_respects_limit_witness :
  let fs' := from_option snd ∅
               (main quiet_env port_args sample_redis sample_clock 3 crowded_fs) in
  Z.of_nat (length (matching fs' (backup_dir port_args)
                      (file_suffix (redis_port port_args) "rdb")))
    ≤ max_backups port_args ∧
  (with_aof port_args = true →
   Z.of_nat (length (matching fs' (backup_dir port_args)
                       (file_suffix (redis_port port_args) "aof")))
     ≤ max_backups port_args).
Proof.
  intros fs'.
  apply (main_respects_limit quiet_env port_args sample_redis sample_clock 3 crowded_fs fs' tt).
  apply some_pair_eta. vm_compute. reflexivity.
Defined.


(** X9 on a concrete run. *)
Lemma bgsave_and_wait_sound_witness :
  ("timeout" = "failed" ∧ bgsave_reply stuck_redis = false) ∨
  (bgsave_reply stuck_redis = true ∧
   (∀ j, (j < 4 - 1)%nat → lastsave_at stuck_redis j = lastsave_at stuck_redis 0) ∧
   (("timeout" = "ok" ∧ lastsave_at stuck_redis (4 - 1) ≠ lastsave_at stuck_redis 0) ∨
    ("timeout" = "timeout" ∧ lastsave_at stuck_redis (4 - 1) = lastsave_at stuck_redis 0 ∧
     sample_clock (4 - 1)%nat - sample_clock 0%nat > timedelta_seconds 2))).
Proof.
  apply (bgsave_and_wait_sound stuck_redis sample_clock (timedelta_seconds 2) 3 "timeout"
           {| polls := 4; ticks := 4;
              calls := [CallNow; CallLastsave; CallBgsave; CallLastsave; CallNow;
                        CallSleep 1; CallLastsave; CallNow; CallSleep 1; CallLastsave;
                        CallNow] |}).
  vm_compute. reflexivity.
Defined.

(** X14 on a concrete run. *)
Lemma clean_backup_dir_stops_at_failure_witness :
  ∃ done_ x rest,
    removal_plan half_pruned_fs "/backups" (file_suffix 6379 "rdb") 1 = done_ ++ x :: rest ∧
    fs_isfile half_pruned_fs x.1 = false ∧
    (∃ code, OSError EISDIR = OSError code) ∧
    (∀ p, (clean_backup_dir "/backups" 1 6379 "rdb" half_pruned_fs).2 !! p =
          if bool_decide (p ∈ done_.*1) then None else half_pruned_fs !! p).
Proof.
  apply (clean_backup_dir_stops_at_failure "/backups" 1 6379 "rdb" half_pruned_fs
           (OSError EISDIR)).
  - vm_compute. reflexivity.
  - vm_compute. reflexivity.
  - vm_compute. reflexivity.
  - discriminate.
Defined.
